(** * IterableWrapperIterDataPipe

    A shallow embedding of [torch/utils/data/datapipes/iter/utils.py]:
    the data pipe that wraps an iterable, optionally deep-copies it for
    every traversal, counts the elements handed out by [__next__] and
    restores a position by replaying.

    The Python objects the class touches are kept in an explicit store:
    the wrapped iterable is a reference into a heap that the caller
    shares, the instance's [__dict__] is a finite map from attribute
    names to values, and the generator created by [__iter__] is a small
    state machine. Exceptions are values; a raised exception keeps every
    state change made before it. *)

From stdpp Require Import gmap strings list.
From Stdlib Require Import ZArith Lia.

(** ** Values, objects and exceptions *)

(** References are indices into the heap. *)
Abbreviation loc := nat (only parsing).

Inductive exn :=
  | StopIteration
  | TypeError
  | AttributeError
  | RuntimeError
  | SystemError   (* a dangling reference: not raised on a well-formed heap *)
  | Exception_ (msg : string).

(** How [copy.deepcopy] fails on an object that cannot be duplicated:
    with [TypeError] (the object does not support copying, such as a
    file handle or a generator), or with an error of its own (a
    [__deepcopy__] that raises, such as a tensor that is not a graph
    leaf). *)
Inductive copy_failure := CopyUnsupported | CopyRefused.

Definition exn_of_copy_failure (c : copy_failure) : exn :=
  match c with CopyUnsupported => TypeError | CopyRefused => RuntimeError end.

(** Elements held by a source: immutable data, or an opaque object that
    cannot be duplicated. An element is not changed in place by anyone:
    what callers mutate here is the container. *)
Inductive elem :=
  | EInt (z : Z)
  | EHandle (id : nat) (c : copy_failure).

(** Attribute and argument values. *)
Inductive value :=
  | VNone
  | VBool (b : bool)
  | VInt (z : Z)
  | VRef (l : loc).

#[global] Instance exn_eq_dec : EqDecision exn.
Proof. solve_decision. Defined.
#[global] Instance copy_failure_eq_dec : EqDecision copy_failure.
Proof. solve_decision. Defined.
#[global] Instance elem_eq_dec : EqDecision elem.
Proof. solve_decision. Defined.
#[global] Instance value_eq_dec : EqDecision value.
Proof. solve_decision. Defined.

(** Heap objects a data pipe can wrap: a list (sized, re-iterable,
    mutable in place by whoever holds it) or a one-shot stream such as a
    generator (no length, consumed by iteration, possibly infinite),
    given by its element function and its position. The streams of this
    model are generator objects, on which [copy.deepcopy] raises
    [TypeError]; iterators that Python can duplicate (a list iterator,
    [itertools.count]) are not among them. *)
Inductive pyobj :=
  | PyList (items : list elem)
  | PyStream (f : nat → option elem) (pos : nat).

(** The iterator that the [for] loop of [__iter__] holds. *)
Inductive src_iter :=
  | ListIter (l : loc) (i : nat)
  | StreamIter (l : loc).

(** The generator object returned by [__iter__]: not yet started,
    suspended at [yield] inside the loop, or finished. *)
Inductive generator :=
  | GenCreated
  | GenSuspended (it : src_iter)
  | GenFinished.

(** The instance and its environment. [self_dict] is [self.__dict__]
    without its ['iter'] entry, which is the typed slot [self_iter]
    ([None] for Python's [None]). *)
Record state := mkState {
  self_dict : gmap string value;
  self_iter : option generator;
  heap : list pyobj;
  warnings : list string
}.

Definition set_dict (d : gmap string value) (st : state) : state :=
  mkState d (self_iter st) (heap st) (warnings st).
Definition set_iter (g : option generator) (st : state) : state :=
  mkState (self_dict st) g (heap st) (warnings st).
Definition set_heap (h : list pyobj) (st : state) : state :=
  mkState (self_dict st) (self_iter st) h (warnings st).
Definition set_warnings (w : list string) (st : state) : state :=
  mkState (self_dict st) (self_iter st) (heap st) w.

(** ** The state and exception monad *)

Inductive outcome (A : Type) :=
  | Ret (a : A)
  | Raise (e : exn).
Arguments Ret {A} a.
Arguments Raise {A} e.

#[global] Instance outcome_eq_dec `{EqDecision A} : EqDecision (outcome A).
Proof. solve_decision. Defined.

Definition M (A : Type) : Type := state → outcome A * state.

Definition ret {A} (a : A) : M A := λ st, (Ret a, st).
Definition raise {A} (e : exn) : M A := λ st, (Raise e, st).
Definition bind {A B} (m : M A) (k : A → M B) : M B :=
  λ st, match m st with
        | (Ret a, st') => k a st'
        | (Raise e, st') => (Raise e, st')
        end.

#[global] Instance M_ret : MRet M := @ret.
#[global] Instance M_bind : MBind M := λ A B k m, bind m k.

(** [try: m except TypeError: h] *)
Definition except_TypeError {A} (m : M A) (h : M A) : M A :=
  λ st, match m st with
        | (Raise TypeError, st') => h st'
        | r => r
        end.

Definition getattr (a : string) : M value :=
  λ st, match self_dict st !! a with
        | Some v => (Ret v, st)
        | None => (Raise AttributeError, st)
        end.
Definition setattr (a : string) (v : value) : M unit :=
  λ st, (Ret tt, set_dict (<[a := v]> (self_dict st)) st).

Definition deref (l : loc) : M pyobj :=
  λ st, match heap st !! l with
        | Some o => (Ret o, st)
        | None => (Raise SystemError, st)
        end.
Definition alloc (o : pyobj) : M loc :=
  λ st, (Ret (length (heap st)), set_heap (heap st ++ [o]) st).
Definition store (l : loc) (o : pyobj) : M unit :=
  λ st, (Ret tt, set_heap (<[l := o]> (heap st)) st).
Definition warn (msg : string) : M unit :=
  λ st, (Ret tt, set_warnings (warnings st ++ [msg]) st).

(** ** Built-ins *)

(** Python's truth value of an object. *)
Definition truthy (v : value) : M bool :=
  match v with
  | VNone => mret false
  | VBool b => mret b
  | VInt z => mret (negb (z =? 0)%Z)
  | VRef l =>
      o ← deref l;
      match o with
      | PyList items => mret (negb (bool_decide (items = [])))
      | PyStream _ _ => mret true
      end
  end.

(** The integer an [int] or [bool] stands for in arithmetic. *)
Definition as_int (v : value) : option Z :=
  match v with
  | VInt z => Some z
  | VBool b => Some (Z.b2z b)
  | _ => None
  end.

(** [a + b] where one operand is a number, as in [self.state_counter += 1]:
    on numbers the sum, on anything else a [TypeError]. *)
Definition py_add (a b : value) : M value :=
  match as_int a, as_int b with
  | Some x, Some y => mret (VInt (x + y))
  | _, _ => raise TypeError
  end.

(** [a < b] where one operand is a number, as in the test of the loop of
    [restore_snapshot], whose left operand is the counter: on numbers
    the comparison, on anything else a [TypeError]. *)
Definition py_lt (a b : value) : M bool :=
  match as_int a, as_int b with
  | Some x, Some y => mret (x <? y)%Z
  | _, _ => raise TypeError
  end.

(** [len(v)] *)
Definition py_len (v : value) : M value :=
  match v with
  | VRef l =>
      o ← deref l;
      match o with
      | PyList items => mret (VInt (Z.of_nat (length items)))
      | PyStream _ _ => raise TypeError
      end
  | _ => raise TypeError
  end.

(** [copy.deepcopy]: elements are copied left to right, the first
    failure is raised; a generator object cannot be duplicated. *)
Definition elem_deepcopy (x : elem) : outcome elem :=
  match x with
  | EInt z => Ret (EInt z)
  | EHandle _ c => Raise (exn_of_copy_failure c)
  end.

Fixpoint items_deepcopy (xs : list elem) : outcome (list elem) :=
  match xs with
  | [] => Ret []
  | x :: xs' =>
      match elem_deepcopy x with
      | Ret y =>
          match items_deepcopy xs' with
          | Ret ys => Ret (y :: ys)
          | Raise e => Raise e
          end
      | Raise e => Raise e
      end
  end.

Definition deepcopy (v : value) : M value :=
  match v with
  | VRef l =>
      o ← deref l;
      match o with
      | PyList items =>
          match items_deepcopy items with
          | Ret items' => l' ← alloc (PyList items'); mret (VRef l')
          | Raise e => raise e
          end
      | PyStream _ _ => raise TypeError
      end
  | _ => mret v
  end.

(** [iter(v)] as the [for] statement calls it. *)
Definition py_iter (v : value) : M src_iter :=
  match v with
  | VRef l =>
      o ← deref l;
      match o with
      | PyList _ => mret (ListIter l 0)
      | PyStream _ _ => mret (StreamIter l)
      end
  | _ => raise TypeError
  end.

(** [next(it)] on the loop's iterator: a list iterator reads the live
    list at its index, a stream advances the shared stream object. *)
Definition iter_next (it : src_iter) : M (elem * src_iter) :=
  match it with
  | ListIter l i =>
      o ← deref l;
      match o with
      | PyList items =>
          match items !! i with
          | Some x => mret (x, ListIter l (S i))
          | None => raise StopIteration
          end
      | PyStream _ _ => raise SystemError
      end
  | StreamIter l =>
      o ← deref l;
      match o with
      | PyStream f pos =>
          match f pos with
          | Some x => store l (PyStream f (S pos));; mret (x, StreamIter l)
          | None => raise StopIteration
          end
      | PyList _ => raise SystemError
      end
  end.

(** ** The class *)

Definition deepcopy_warning : string :=
  "The input iterable can not be deepcopied, please be aware of in-place modification would affect source data.".

(** [__init__(self, iterable, deepcopy=True)]: the attributes it sets,
    ['iter'] apart, and the instance it leaves in a heap [h] with
    warnings [w] so far. *)
Definition init_dict (iterable : value) (deepcopy : value)
    : gmap string value :=
  <["iterable" := iterable]>
    (<["deepcopy" := deepcopy]>
      (<["state_counter" := VInt 0]> ∅)).

Definition __init__ (iterable : value) (deepcopy : value)
    (h : list pyobj) (w : list string) : state :=
  mkState (init_dict iterable deepcopy) None h w.

(** The body of [__iter__] up to the loop: runs when the first element
    is requested. *)
Definition iter_body_start : M src_iter :=
  source_data ← getattr "iterable";
  dc ← getattr "deepcopy";
  b ← truthy dc;
  source_data ←
    (if b : bool then
       except_TypeError (deepcopy source_data)
         (warn deepcopy_warning;; mret source_data)
     else mret source_data);
  py_iter source_data.

Definition gen_resume (g : generator) : M (elem * src_iter) :=
  match g with
  | GenCreated => it ← iter_body_start; iter_next it
  | GenSuspended it => iter_next it
  | GenFinished => raise StopIteration
  end.

(** [next(g)] on a generator of [__iter__]: the result, the generator
    afterwards, and the state. An exception, and the end of the loop,
    finish the generator. *)
Definition gen_next (g : generator) (st : state)
    : outcome elem * generator * state :=
  match gen_resume g st with
  | (Ret (x, it), st') => (Ret x, GenSuspended it, st')
  | (Raise e, st') => (Raise e, GenFinished, st')
  end.

(** [__iter__(self)]: calling a generator function runs none of its body. *)
Definition __iter__ : generator := GenCreated.

(** [next(self.iter)] *)
Definition next_self_iter : M elem :=
  λ st, match self_iter st with
        | Some g =>
            let '(r, g', st') := gen_next g st in (r, set_iter (Some g') st')
        | None => (Raise TypeError, st)
        end.

(** [__next__(self)] *)
Definition __next__ : M elem :=
  (λ st, match self_iter st with
         | None => (Ret tt, set_iter (Some __iter__) st)
         | Some _ => (Ret tt, st)
         end);;
  c ← getattr "state_counter";
  c' ← py_add c (VInt 1);
  setattr "state_counter" c';;
  next_self_iter.

(** [save_snapshot(self)] *)
Definition save_snapshot : M value := getattr "state_counter".

(** The loop of [restore_snapshot]; [None] when [fuel] iterations were
    not enough to leave it. *)
Fixpoint restore_loop (fuel : nat) (target_count : value) (st : state)
    : option (outcome unit * state) :=
  match fuel with
  | O => None
  | S fuel' =>
      match (c ← getattr "state_counter"; py_lt c target_count) st with
      | (Ret true, st1) =>
          match __next__ st1 with
          | (Ret _, st2) => restore_loop fuel' target_count st2
          | (Raise e, st2) => Some (Raise e, st2)
          end
      | (Ret false, st1) => Some (Ret tt, st1)
      | (Raise e, st1) => Some (Raise e, st1)
      end
  end.

(** [restore_snapshot(self, target_count=None)] *)
Definition restore_snapshot (fuel : nat) (target_count : value) (st : state)
    : option (outcome unit * state) :=
  match (match target_count with
         | VNone => getattr "state_counter"
         | _ => mret target_count
         end) st with
  | (Ret target_count, st1) =>
      match setattr "state_counter" (VInt 0) st1 with
      | (_, st2) => restore_loop fuel target_count st2
      end
  | (Raise e, st1) => Some (Raise e, st1)
  end.

(** [__getstate__(self)] *)
Definition __getstate__ : M (gmap string value) :=
  λ st, match self_iter st with
        | Some _ => (Raise (Exception_ EmptyString), st)
        | None => (Ret (delete "iter" (self_dict st)), st)
        end.

(** [__setstate__(self, state)] *)
Definition __setstate__ (state_ : gmap string value) : M unit :=
  λ st, (Ret tt, set_iter (Some __iter__) (set_dict (delete "iter" state_) st)).

(** [__len__(self)] *)
Definition __len__ : M value :=
  it ← getattr "iterable"; py_len it.

(** ** Callers and traces *)

(** The caller mutates a list it holds a reference to. *)
Definition mutate (l : loc) (items : list elem) (st : state) : state :=
  match heap st !! l with
  | Some (PyList _) => set_heap (<[l := PyList items]> (heap st)) st
  | _ => st
  end.

(** [n] calls of [__next__], the results collected; the first exception
    ends the sequence and is the result. *)
Fixpoint next_n (n : nat) : M (list elem) :=
  match n with
  | O => mret []
  | S n' => x ← __next__; xs ← next_n n'; mret (x :: xs)
  end.

(** [n] calls of [__next__] whose results are discarded. *)
Fixpoint advance_n (n : nat) : M unit :=
  match n with
  | O => mret tt
  | S n' => __next__;; advance_n n'
  end.

(** The state after [n] calls of [__next__], whatever each one gave. *)
Fixpoint after_calls (n : nat) (st : state) : state :=
  match n with
  | O => st
  | S n' => after_calls n' (__next__ st).2
  end.

(** [n] pulls on a generator obtained from [__iter__]; [env k] is what
    the rest of the program does to the state after pull [k]. All
    results are collected. *)
Fixpoint pulls (n : nat) (env : nat → state → state) (g : generator)
    (st : state) : list (outcome elem) * generator * state :=
  match n with
  | O => ([], g, st)
  | S n' =>
      let '(r, g', st') := gen_next g st in
      let '(rs, g'', st'') := pulls n' (λ k, env (S k)) g' (env O st') in
      (r :: rs, g'', st'')
  end.

(** What [n] pulls on a traversal of elements [xs] give: the first [n]
    elements, then the end of the iteration. *)
Definition yields (xs : list elem) (n : nat) : list (outcome elem) :=
  (Ret <$> take n xs) ++ replicate (n - length xs) (Raise StopIteration).

(** The first [n] elements of a stream from position [pos]. *)
Fixpoint stream_take (f : nat → option elem) (pos n : nat) : list elem :=
  match n with
  | O => []
  | S n' =>
      match f pos with
      | Some x => x :: stream_take f (S pos) n'
      | None => []
      end
  end.

(** The first [n] elements that iterating an object gives. *)
Definition source_elems (o : pyobj) (n : nat) : list elem :=
  match o with
  | PyList items => take n items
  | PyStream f pos => stream_take f pos n
  end.

(** The operations of the class, and what a caller can do besides. *)
Inductive op :=
  | OpNext
  | OpSaveSnapshot
  | OpRestoreSnapshot (target_count : value)
  | OpGetstate
  | OpSetstate (state_ : gmap string value)
  | OpLen
  | OpPull (g : generator)
  | OpMutate (l : loc) (items : list elem).

Inductive step : state → op → state → Prop :=
  | step_next st :
      step st OpNext (__next__ st).2
  | step_save st :
      step st OpSaveSnapshot (save_snapshot st).2
  | step_restore st fuel t r st' :
      restore_snapshot fuel t st = Some (r, st') →
      step st (OpRestoreSnapshot t) st'
  | step_getstate st :
      step st OpGetstate (__getstate__ st).2
  | step_setstate st d :
      step st (OpSetstate d) (__setstate__ d st).2
  | step_len st :
      step st OpLen (__len__ st).2
  | step_pull st g :
      step st (OpPull g) (gen_next g st).2
  | step_mutate st l items :
      step st (OpMutate l items) (mutate l items st).

Inductive steps : state → list op → state → Prop :=
  | steps_nil st : steps st [] st
  | steps_cons st o st' os st'' :
      step st o st' → steps st' os st'' → steps st (o :: os) st''.

(** The description's restore-progress, word for word: reset the count,
    discard the cursor, advance [target_count] times. *)
Definition spec_restore_progress (target_count : Z) : M unit :=
  setattr "state_counter" (VInt 0);;
  (λ st, (Ret tt, set_iter None st));;
  advance_n (Z.to_nat target_count).

(** The elements of a list can all be duplicated. *)
Definition deep_copyable (xs : list elem) : Prop :=
  ∃ ys, items_deepcopy xs = Ret ys.

(** Under copy policy [dc], the duplication of [xs] succeeds or fails
    as unsupported: the traversal starts. *)
Definition copy_recoverable (dc : bool) (xs : list elem) : Prop :=
  dc = true → items_deepcopy xs ≠ Raise RuntimeError.

#[global] Instance deep_copyable_dec xs : Decision (deep_copyable xs).
Proof.
  unfold deep_copyable. destruct (items_deepcopy xs) as [ys|e].
  - left. by exists ys.
  - right. by intros [ys ?].
Defined.

#[global] Instance copy_recoverable_dec dc xs :
  Decision (copy_recoverable dc xs).
Proof. unfold copy_recoverable. apply _. Defined.

Definition counter (st : state) : option value :=
  self_dict st !! "state_counter".

Definition cursor_active (st : state) : Prop := is_Some (self_iter st).

(** ** Predicates and examples used in the statements *)

(** [frame st st']: the instance is untouched, every object of [st] is
    still there, every list still has its items, and a stream is still
    that stream, at some position. *)
Record frame (st st' : state) : Prop := mkFrame {
  frame_dict : self_dict st' = self_dict st;
  frame_iter : self_iter st' = self_iter st;
  frame_len : length (heap st) ≤ length (heap st');
  frame_list : ∀ l items,
    heap st !! l = Some (PyList items) → heap st' !! l = Some (PyList items);
  frame_stream : ∀ l f pos,
    heap st !! l = Some (PyStream f pos) →
    ∃ pos', heap st' !! l = Some (PyStream f pos')
}.

Definition framed {A} (m : M A) : Prop := ∀ st, frame st (m st).2.

(** The state in which [next(self.iter)] runs once the counter [c] has
    been read and incremented. *)
Definition counted (c : Z) (st : state) : state :=
  set_dict (<["state_counter" := VInt (c + 1)]> (self_dict st))
           (set_iter (Some (default __iter__ (self_iter st))) st).

(** The state in which the loop starts. *)
Definition reset_counter (st : state) : state :=
  set_dict (<["state_counter" := VInt 0]> (self_dict st)) st.

(** The cursor is suspended at index [i] of a list holding [xs]. *)
Definition list_cursor (xs : list elem) (i : nat) (st : state) : Prop :=
  ∃ c, self_iter st = Some (GenSuspended (ListIter c i))
     ∧ heap st !! c = Some (PyList xs).

(** No element has been requested yet from an instance over [xs]. *)
Definition unstarted_on (xs : list elem) (st : state) : Prop :=
  (self_iter st = None ∨ self_iter st = Some GenCreated)
  ∧ ∃ l dc, self_dict st !! "iterable" = Some (VRef l)
          ∧ self_dict st !! "deepcopy" = Some (VBool dc)
          ∧ heap st !! l = Some (PyList xs)
          ∧ copy_recoverable dc xs.

(** The next element that [__next__] hands out is [xs !! i]. *)
Definition positioned (xs : list elem) (i : nat) (st : state) : Prop :=
  (i = 0 ∧ unstarted_on xs st) ∨ list_cursor xs i st.

(** The running example: a wrapper over [1, 2, 3, 4, 5] that copies. *)
Definition example_heap : list pyobj :=
  [PyList [EInt 1; EInt 2; EInt 3; EInt 4; EInt 5]].

Definition example_fresh : state :=
  __init__ (VRef 0) (VBool true) example_heap [].

(** After two calls of [__next__]. *)
Definition example_two : state := after_calls 2 example_fresh.

(** A second instance into which the state extracted from the fresh one
    has been installed. *)
Definition example_installed : state :=
  match __getstate__ example_fresh with
  | (Ret d, st) => (__setstate__ d (mkState ∅ None (heap st) (warnings st))).2
  | (Raise _, st) => st
  end.

(** A wrapper over the empty list. *)
Definition empty_fresh : state :=
  __init__ (VRef 0) (VBool true) [PyList []] [].

(** A wrapper over a list of one element. *)
Definition single_fresh : state :=
  __init__ (VRef 0) (VBool true) [PyList [EInt 1]] [].

(** A wrapper over a list holding an object whose [__deepcopy__]
    raises an error of its own. *)
Definition refused_fresh : state :=
  __init__ (VRef 0) (VBool true) [PyList [EInt 1; EHandle 0 CopyRefused]] [].

(** A wrapper over a list holding a file handle. *)
Definition handle_fresh : state :=
  __init__ (VRef 0) (VBool true) [PyList [EInt 1; EHandle 0 CopyUnsupported]] [].

(** A wrapper over the stream 0, 1, 2, ... *)
Definition stream_fresh : state :=
  __init__ (VRef 0) (VBool true)
       [PyStream (λ i, Some (EInt (Z.of_nat i))) 0] [].

(** A wrapper over [1, 2, 3]. *)
Definition triple_fresh : state :=
  __init__ (VRef 0) (VBool true) [PyList [EInt 1; EInt 2; EInt 3]] [].

(** How many of [n] calls of [__next__] hand out an element. *)
Fixpoint produced (n : nat) (st : state) : nat :=
  match n with
  | O => 0
  | S n' =>
      match __next__ st with
      | (Ret _, st') => S (produced n' st')
      | (Raise _, st') => produced n' st'
      end
  end.

(** The rest of the program does nothing between two pulls. *)
Definition undisturbed : nat → state → state := λ _ s, s.

(** The installed example after one call of [__next__], a length query,
    a snapshot and a restore to 1. *)
Definition example_busy : state :=
  let st1 := (__next__ example_installed).2 in
  match restore_snapshot 2 (VInt 1) st1 with
  | Some (_, st2) => st2
  | None => st1
  end.

(** The loop iterator over the object [o] at [l] itself. *)
Definition direct_iter (l : loc) (o : pyobj) : src_iter :=
  match o with
  | PyList _ => ListIter l 0
  | PyStream _ _ => StreamIter l
  end.

(** The wrapper over [1, 2, 3] after a full traversal, the caller having
    then appended 4 to the list. *)
Definition triple_appended : state :=
  mutate 0 [EInt 1; EInt 2; EInt 3; EInt 4]
         (pulls 4 undisturbed __iter__ triple_fresh).2.

(** A caller that overwrites the wrapped list between any two pulls. *)
Definition overwriting : nat → state → state :=
  λ _ s, mutate 0 [EInt 9] s.

(** ** Further callers and examples *)

(** Two generators of [__iter__] pulled in turn, [n] times each. *)
Fixpoint pulls_alternating (n : nat) (g1 g2 : generator) (st : state)
    : list (outcome elem) * list (outcome elem) * state :=
  match n with
  | O => ([], [], st)
  | S n' =>
      let '(r1, g1', st1) := gen_next g1 st in
      let '(r2, g2', st2) := gen_next g2 st1 in
      let '(rs1, rs2, st') := pulls_alternating n' g1' g2' st2 in
      (r1 :: rs1, r2 :: rs2, st')
  end.

(** A caller that replaces the items of the list at [l] by [ys] once,
    right after the first pull. *)
Definition mutate_after_first (l : loc) (ys : list elem)
    : nat → state → state :=
  λ k s, match k with O => mutate l ys s | S _ => s end.

(** A new object, in a heap [h], into which the state [d] is installed,
    as unpickling does. *)
Definition unpickled (d : gmap string value) (h : list pyobj)
    (w : list string) : state :=
  (__setstate__ d (mkState ∅ None h w)).2.

(** The operations of the class itself, as opposed to a write by the
    caller. *)
Definition class_op (o : op) : bool :=
  match o with
  | OpMutate _ _ => false
  | _ => true
  end.

(** A wrapper over [1, 2, 3] that does not copy. *)
Definition triple_nocopy : state :=
  __init__ (VRef 0) (VBool false) [PyList [EInt 1; EInt 2; EInt 3]] [].

(** A wrapper over the number 5. *)
Definition number_fresh : state :=
  __init__ (VInt 5) (VBool true) [] [].

(** A wrapper over the finite stream 10, 11, 12. *)
Definition short_stream_fresh : state :=
  __init__ (VRef 0) (VBool true)
    [PyStream (λ i, if decide (i < 3) then Some (EInt (10 + Z.of_nat i))
                    else None) 0] [].

(** The cursor of the instance is suspended at index [i] of the list at
    [c], which holds [xs]. *)
Definition cursor_at (c : loc) (xs : list elem) (i : nat) (st : state)
    : Prop :=
  self_iter st = Some (GenSuspended (ListIter c i))
  ∧ heap st !! c = Some (PyList xs).

(** ** Monad laws and the frame of each operation *)

(** Opens the binds of a computation applied to a state. *)
Ltac monad_unfold :=
  unfold mbind, M_bind, bind, mret, M_ret, ret, raise.

Lemma bind_ret_l {A B} (a : A) (k : A → M B) st :
  (x ← mret a; k x) st = k a st.
Proof. reflexivity. Qed.

Lemma bind_assoc {A B C} (m : M A) (k : A → M B) (k' : B → M C) st :
  (y ← (x ← m; k x); k' y) st = (x ← m; y ← k x; k' y) st.
Proof.
  monad_unfold. destruct (m st) as [[a|e] st1]; reflexivity.
Qed.

Lemma bind_run {A B} (m : M A) (k : A → M B) st :
  (x ← m; k x) st =
  match m st with
  | (Ret a, st') => k a st'
  | (Raise e, st') => (Raise e, st')
  end.
Proof. reflexivity. Qed.

Lemma frame_refl st : frame st st.
Proof. split; eauto. Qed.

Lemma frame_trans st1 st2 st3 : frame st1 st2 → frame st2 st3 → frame st1 st3.
Proof.
  intros [d1 i1 n1 l1 s1] [d2 i2 n2 l2 s2]. split.
  - congruence.
  - congruence.
  - lia.
  - auto.
  - intros l f pos H. destruct (s1 _ _ _ H) as [pos' H']. eauto.
Qed.

Lemma framed_ret {A} (a : A) : framed (mret a).
Proof. intros st. apply frame_refl. Qed.

Lemma framed_raise {A} e : framed (@raise A e).
Proof. intros st. apply frame_refl. Qed.

Lemma framed_bind {A B} (m : M A) (k : A → M B) :
  framed m → (∀ a, framed (k a)) → framed (x ← m; k x).
Proof.
  intros Hm Hk st. rewrite bind_run. specialize (Hm st).
  destruct (m st) as [[a|e] st1]; simpl in *; [|done].
  eapply frame_trans; [exact Hm | apply Hk].
Qed.

Lemma framed_getattr a : framed (getattr a).
Proof. intros st. unfold getattr. destruct (_ !! _); apply frame_refl. Qed.

Lemma framed_deref l : framed (deref l).
Proof. intros st. unfold deref. destruct (_ !! _); apply frame_refl. Qed.

Lemma framed_alloc o : framed (alloc o).
Proof.
  intros st. split; simpl; auto.
  - rewrite length_app. lia.
  - intros l items H. by apply lookup_app_l_Some.
  - intros l f pos H. exists pos. by apply lookup_app_l_Some.
Qed.

Lemma framed_warn msg : framed (warn msg).
Proof. intros st. split; simpl; eauto. Qed.

Lemma framed_except {A} (m h : M A) :
  framed m → framed h → framed (except_TypeError m h).
Proof.
  intros Hm Hh st. unfold except_TypeError. specialize (Hm st).
  destruct (m st) as [[a|e] st1]; simpl in *; [done|].
  destruct e; try done. eapply frame_trans; [exact Hm | apply Hh].
Qed.

Create HintDb framed.
#[local] Hint Resolve framed_ret framed_raise framed_getattr framed_deref
  framed_alloc framed_warn : framed.

(** Walks down a computation built from binds and case analyses. *)
Ltac framed_auto :=
  repeat match goal with
         | |- framed (mbind _ _) => apply framed_bind
         | |- framed (except_TypeError _ _) => apply framed_except
         | |- framed (match ?x with _ => _ end) => destruct x
         | |- framed (if ?b then _ else _) => destruct b
         | |- ∀ _, _ => intro
         | |- _ => solve [auto with framed]
         end.

Lemma framed_truthy v : framed (truthy v).
Proof. unfold truthy. framed_auto. Qed.

Lemma framed_deepcopy v : framed (deepcopy v).
Proof. unfold deepcopy. framed_auto. Qed.

Lemma framed_py_iter v : framed (py_iter v).
Proof. unfold py_iter. framed_auto. Qed.

Lemma framed_iter_next it : framed (iter_next it).
Proof.
  intros st. destruct it as [l i|l]; simpl; rewrite bind_run; unfold deref.
  - destruct (heap st !! l) as [[items|f pos]|]; simpl; try apply frame_refl.
    destruct (items !! i); apply frame_refl.
  - destruct (heap st !! l) as [[items|f pos]|] eqn:Hl; simpl;
      try apply frame_refl.
    destruct (f pos); [|apply frame_refl].
    split; simpl; auto.
    + by rewrite length_insert.
    + intros l' items H. destruct (decide (l = l')) as [->|Hne].
      * congruence.
      * by rewrite list_lookup_insert_ne.
    + intros l' f' pos' H. destruct (decide (l = l')) as [->|Hne].
      * exists (S pos). rewrite Hl in H. injection H as <- <-.
        apply list_lookup_insert_eq. by eapply lookup_lt_Some.
      * exists pos'. by rewrite list_lookup_insert_ne.
Qed.

#[local] Hint Resolve framed_truthy framed_deepcopy framed_py_iter
  framed_iter_next : framed.

Lemma framed_iter_body_start : framed iter_body_start.
Proof. unfold iter_body_start. framed_auto. Qed.

#[local] Hint Resolve framed_iter_body_start : framed.

Lemma framed_gen_resume g : framed (gen_resume g).
Proof. unfold gen_resume. framed_auto. Qed.

Lemma gen_next_frame g st : frame st (gen_next g st).2.
Proof.
  unfold gen_next. pose proof (framed_gen_resume g st) as H.
  destruct (gen_resume g st) as [[[x it]|e] st']; exact H.
Qed.

(** ** [__next__], case by case *)

Lemma next_cases st :
  let g := default __iter__ (self_iter st) in
  __next__ st =
    match self_dict st !! "state_counter" with
    | None => (Raise AttributeError, set_iter (Some g) st)
    | Some v =>
        match as_int v with
        | None => (Raise TypeError, set_iter (Some g) st)
        | Some c =>
            let '(r, g', st') := gen_next g (counted c st) in
            (r, set_iter (Some g') st')
        end
    end.
Proof.
  unfold __next__, counted, getattr, py_add, setattr, next_self_iter.
  monad_unfold.
  destruct st as [d it h w]; simpl.
  destruct it as [g|]; simpl;
    (destruct (d !! "state_counter") as [v|]; [|reflexivity]);
    (destruct (as_int v) as [c|]; [|reflexivity]); reflexivity.
Qed.

Lemma next_counted st c :
  counter st = Some (VInt c) →
  __next__ st =
    let '(r, g', st') :=
      gen_next (default __iter__ (self_iter st)) (counted c st) in
    (r, set_iter (Some g') st').
Proof.
  intros Hc. pose proof (next_cases st) as H. unfold counter in Hc.
  rewrite Hc in H. exact H.
Qed.

(** A call of [__next__] leaves a cursor behind, whatever it returns. *)
Lemma next_cursor_active st : cursor_active (__next__ st).2.
Proof.
  rewrite next_cases. unfold cursor_active.
  destruct (self_dict st !! "state_counter") as [v|]; [|by eexists].
  destruct (as_int v) as [c|]; [|by eexists].
  destruct (gen_next _ _) as [[r g'] st']. by eexists.
Qed.

(** It adds one to the counter, whatever it returns. *)
Lemma next_counter st c :
  counter st = Some (VInt c) → counter (__next__ st).2 = Some (VInt (c + 1)).
Proof.
  intros Hc. rewrite (next_counted _ _ Hc).
  pose proof (gen_next_frame (default __iter__ (self_iter st)) (counted c st)) as F.
  destruct (gen_next _ _) as [[r g'] st']. simpl in *.
  unfold counter. simpl. rewrite (frame_dict _ _ F). simpl.
  apply lookup_insert_eq.
Qed.

(** It touches no attribute but the counter, and no list. *)
Lemma next_attr st a :
  a ≠ "state_counter" → self_dict (__next__ st).2 !! a = self_dict st !! a.
Proof.
  intros Ha. rewrite next_cases.
  destruct (self_dict st !! "state_counter") as [v|]; [|reflexivity].
  destruct (as_int v) as [c|]; [|reflexivity].
  pose proof (gen_next_frame (default __iter__ (self_iter st)) (counted c st)) as F.
  destruct (gen_next _ _) as [[r g'] st']. simpl in *.
  rewrite (frame_dict _ _ F). simpl. by rewrite lookup_insert_ne.
Qed.

Lemma next_list st l items :
  heap st !! l = Some (PyList items) →
  heap (__next__ st).2 !! l = Some (PyList items).
Proof.
  intros Hl. rewrite next_cases.
  destruct (self_dict st !! "state_counter") as [v|]; [|exact Hl].
  destruct (as_int v) as [c|]; [|exact Hl].
  pose proof (gen_next_frame (default __iter__ (self_iter st)) (counted c st)) as F.
  destruct (gen_next _ _) as [[r g'] st']. simpl in *.
  by apply (frame_list _ _ F).
Qed.

Lemma after_calls_attr n st a :
  a ≠ "state_counter" → self_dict (after_calls n st) !! a = self_dict st !! a.
Proof.
  intros Ha. revert st. induction n as [|n IH]; intros st; simpl; [done|].
  rewrite IH. by apply next_attr.
Qed.

Lemma after_calls_list n st l items :
  heap st !! l = Some (PyList items) →
  heap (after_calls n st) !! l = Some (PyList items).
Proof.
  revert st. induction n as [|n IH]; intros st Hl; simpl; [done|].
  apply IH. by apply next_list.
Qed.

Lemma after_calls_counter n st c :
  counter st = Some (VInt c) →
  counter (after_calls n st) = Some (VInt (c + Z.of_nat n)).
Proof.
  revert st c. induction n as [|n IH]; intros st c Hc; simpl.
  - by rewrite Z.add_0_r.
  - rewrite (IH _ (c + 1)%Z); [|by apply next_counter].
    do 2 f_equal. lia.
Qed.

(** ** The loop of [restore_snapshot] *)

Lemma advance_n_S n st :
  advance_n (S n) st =
  match __next__ st with
  | (Ret _, st') => advance_n n st'
  | (Raise e, st') => (Raise e, st')
  end.
Proof. reflexivity. Qed.

(** From counter [c], reaching [c + k] takes [k] calls of [__next__];
    any fuel above [k] is enough. *)
Lemma restore_loop_advance k : ∀ fuel st c,
  counter st = Some (VInt c) →
  k < fuel →
  restore_loop fuel (VInt (c + Z.of_nat k)) st = Some (advance_n k st).
Proof.
  induction k as [|k IH]; intros fuel st c Hc Hf;
    (destruct fuel as [|fuel]; [lia|]).
  - simpl. rewrite bind_run. unfold getattr. unfold counter in Hc.
    rewrite Hc. simpl.
    replace (c <? c + Z.of_nat 0)%Z with false
      by (symmetry; apply Z.ltb_ge; lia).
    reflexivity.
  - rewrite advance_n_S. cbn [restore_loop]. rewrite bind_run.
    unfold getattr. pose proof Hc as Hc'. unfold counter in Hc'.
    rewrite Hc'. cbn [py_lt as_int]. cbv beta iota.
    replace (c <? c + Z.of_nat (S k))%Z with true
      by (symmetry; apply Z.ltb_lt; lia).
    cbn [mret M_ret ret].
    pose proof (next_counter st c Hc) as Hn.
    destruct (__next__ st) as [[x|e] st2]; [|reflexivity].
    simpl in Hn.
    replace (c + Z.of_nat (S k))%Z with ((c + 1) + Z.of_nat k)%Z by lia.
    apply IH; [exact Hn | lia].
Qed.

Lemma reset_counter_iter st : self_iter (reset_counter st) = self_iter st.
Proof. reflexivity. Qed.

Lemma reset_counter_counter st : counter (reset_counter st) = Some (VInt 0).
Proof. unfold counter, reset_counter. simpl. apply lookup_insert_eq. Qed.

Lemma restore_snapshot_advance (n : Z) fuel st :
  (0 ≤ n)%Z → Z.to_nat n < fuel →
  restore_snapshot fuel (VInt n) st
  = Some (advance_n (Z.to_nat n) (reset_counter st)).
Proof.
  intros Hn Hf. unfold restore_snapshot. cbn.
  change (set_dict _ st) with (reset_counter st).
  rewrite <- (restore_loop_advance (Z.to_nat n) fuel _ 0);
    [|apply reset_counter_counter | exact Hf].
  do 2 f_equal. lia.
Qed.

Lemma restore_snapshot_default fuel st c :
  counter st = Some (VInt c) →
  restore_snapshot fuel VNone st = restore_snapshot fuel (VInt c) st.
Proof.
  intros Hc. unfold restore_snapshot, getattr. unfold counter in Hc.
  by rewrite Hc.
Qed.

(** ** Duplication *)

Lemma items_deepcopy_Ret xs ys : items_deepcopy xs = Ret ys → ys = xs.
Proof.
  revert ys. induction xs as [|x xs IH]; intros ys; simpl.
  - congruence.
  - destruct x as [z|id c]; simpl; [|discriminate].
    destruct (items_deepcopy xs) as [zs|e]; [|discriminate].
    intros [= <-]. f_equal. by apply IH.
Qed.

Lemma items_deepcopy_Raise xs e :
  items_deepcopy xs = Raise e → e = TypeError ∨ e = RuntimeError.
Proof.
  induction xs as [|x xs IH]; simpl; [discriminate|].
  destruct x as [z|id c]; simpl.
  - destruct (items_deepcopy xs) as [zs|e']; [discriminate|].
    intros [= <-]. by apply IH.
  - intros [= <-]. destruct c; auto.
Qed.

Lemma deep_copyable_Ret xs : deep_copyable xs → items_deepcopy xs = Ret xs.
Proof. intros [ys H]. by rewrite H, (items_deepcopy_Ret _ _ H). Qed.

(** ** The generator of [__iter__] *)

Lemma gen_next_finished st :
  gen_next GenFinished st = (Raise StopIteration, GenFinished, st).
Proof. reflexivity. Qed.

Lemma gen_next_list_iter c i xs st :
  heap st !! c = Some (PyList xs) →
  gen_next (GenSuspended (ListIter c i)) st =
    match xs !! i with
    | Some x => (Ret x, GenSuspended (ListIter c (S i)), st)
    | None => (Raise StopIteration, GenFinished, st)
    end.
Proof.
  intros Hc. unfold gen_next, gen_resume, iter_next.
  rewrite bind_run. unfold deref. rewrite Hc.
  destruct (xs !! i); reflexivity.
Qed.

Lemma gen_next_stream_iter l f pos st :
  heap st !! l = Some (PyStream f pos) →
  gen_next (GenSuspended (StreamIter l)) st =
    match f pos with
    | Some x => (Ret x, GenSuspended (StreamIter l),
                 set_heap (<[l := PyStream f (S pos)]> (heap st)) st)
    | None => (Raise StopIteration, GenFinished, st)
    end.
Proof.
  intros Hl. unfold gen_next, gen_resume, iter_next.
  rewrite bind_run. unfold deref. rewrite Hl.
  destruct (f pos); reflexivity.
Qed.

(** The first pull runs the start of the body, then the loop. *)
Lemma gen_next_created st :
  gen_next GenCreated st =
    match iter_body_start st with
    | (Ret it, st1) => gen_next (GenSuspended it) st1
    | (Raise e, st1) => (Raise e, GenFinished, st1)
    end.
Proof.
  unfold gen_next, gen_resume. rewrite bind_run.
  destruct (iter_body_start st) as [[it|e] st1]; reflexivity.
Qed.

(** The start of the body over a list, by copy policy and by what the
    duplication does. *)
Lemma iter_body_start_list st l xs dc :
  self_dict st !! "iterable" = Some (VRef l) →
  self_dict st !! "deepcopy" = Some (VBool dc) →
  heap st !! l = Some (PyList xs) →
  iter_body_start st =
    if dc then
      match items_deepcopy xs with
      | Ret ys =>
          (Ret (ListIter (length (heap st)) 0),
           set_heap (heap st ++ [PyList ys]) st)
      | Raise TypeError =>
          (Ret (ListIter l 0),
           set_warnings (warnings st ++ [deepcopy_warning]) st)
      | Raise e => (Raise e, st)
      end
    else (Ret (ListIter l 0), st).
Proof.
  intros Hsrc Hdc Hl.
  unfold iter_body_start, getattr; monad_unfold.
  rewrite Hsrc, Hdc. cbn [truthy mret M_ret ret].
  destruct dc.
  - unfold except_TypeError, deepcopy, deref; monad_unfold.
    rewrite Hl. destruct (items_deepcopy xs) as [ys|e].
    + cbn. unfold deref; monad_unfold. cbn.
      rewrite list_lookup_middle by reflexivity. reflexivity.
    + destruct e; cbn; try reflexivity.
      unfold deref; monad_unfold. cbn. rewrite Hl. reflexivity.
  - cbn. unfold deref; monad_unfold. rewrite Hl. reflexivity.
Qed.

(** The start of the body when the duplication is unsupported. *)
Lemma iter_body_start_unsupported st l o :
  self_dict st !! "iterable" = Some (VRef l) →
  self_dict st !! "deepcopy" = Some (VBool true) →
  heap st !! l = Some o →
  (deepcopy (VRef l) st).1 = Raise TypeError →
  iter_body_start st =
    (Ret (match o with
          | PyList _ => ListIter l 0
          | PyStream _ _ => StreamIter l
          end),
     set_warnings (warnings st ++ [deepcopy_warning]) st).
Proof.
  intros Hsrc Hdc Hl Hcopy. destruct o as [xs|f pos].
  - rewrite (iter_body_start_list st l xs true Hsrc Hdc Hl).
    revert Hcopy. unfold deepcopy, deref; monad_unfold. rewrite Hl.
    destruct (items_deepcopy xs) as [ys|e]; cbn; [discriminate|].
    by intros [= ->].
  - unfold iter_body_start, getattr; monad_unfold.
    rewrite Hsrc, Hdc. cbn [truthy mret M_ret ret].
    unfold except_TypeError, deepcopy, deref; monad_unfold.
    rewrite Hl. cbn. unfold deref; monad_unfold. cbn.
    rewrite Hl. reflexivity.
Qed.

(** ** Traversals *)

Lemma yields_cons x xs n : yields (x :: xs) (S n) = Ret x :: yields xs n.
Proof. reflexivity. Qed.

Lemma yields_nil n : yields [] n = replicate n (Raise StopIteration).
Proof. unfold yields. destruct n; simpl; by rewrite ?Nat.sub_0_r. Qed.

Lemma pulls_S n env g st :
  pulls (S n) env g st =
    let '(r, g', st') := gen_next g st in
    let '(rs, g'', st'') := pulls n (λ k, env (S k)) g' (env O st') in
    (r :: rs, g'', st'').
Proof. reflexivity. Qed.

Lemma pulls_created n env st :
  pulls (S n) env GenCreated st =
    match iter_body_start st with
    | (Ret it, st1) => pulls (S n) env (GenSuspended it) st1
    | (Raise e, st1) =>
        let '(rs, g, st') := pulls n (λ k, env (S k)) GenFinished (env O st1) in
        (Raise e :: rs, g, st')
    end.
Proof.
  rewrite pulls_S, gen_next_created.
  destruct (iter_body_start st) as [[it|e] st1]; reflexivity.
Qed.

Lemma pulls_finished n : ∀ env st,
  (pulls n env GenFinished st).1.1 = replicate n (Raise StopIteration).
Proof.
  induction n as [|n IH]; intros env st; [reflexivity|].
  rewrite pulls_S, gen_next_finished.
  specialize (IH (λ k, env (S k)) (env O st)).
  destruct (pulls n _ _ _) as [[rs g] st']. simpl in *. by rewrite IH.
Qed.

Section list_traversal.
  Context (c : loc) (xs : list elem).

(** A traversal suspended at index [i] of a list at [c] yields the rest
    of that list, as long as nobody else writes to [c]. *)
Lemma pulls_list_iter n : ∀ i env st,
  heap st !! c = Some (PyList xs) →
  (∀ k s, heap s !! c = Some (PyList xs) →
          heap (env k s) !! c = Some (PyList xs)) →
  (pulls n env (GenSuspended (ListIter c i)) st).1.1 = yields (drop i xs) n.
Proof.
  induction n as [|n IH]; intros i env st Hc Henv; [reflexivity|].
  rewrite pulls_S, (gen_next_list_iter _ _ _ _ Hc).
  destruct (xs !! i) as [x|] eqn:Hi.
  - specialize (IH (S i) (λ k, env (S k)) (env O st)).
    destruct (pulls n _ _ _) as [[rs g] st']. simpl in *.
    rewrite (drop_S _ _ _ Hi), yields_cons. f_equal.
    apply IH; [by apply Henv | intros k s; apply Henv].
  - pose proof (pulls_finished n (λ k, env (S k)) (env O st)) as Hf.
    destruct (pulls n _ _ _) as [[rs g] st']. simpl in *.
    rewrite drop_ge by (by apply lookup_ge_None).
    by rewrite yields_nil, Hf.
Qed.

End list_traversal.

(** An undisturbed traversal of a stream yields the stream from its
    position. *)
Lemma pulls_stream_iter l f n : ∀ pos st,
  heap st !! l = Some (PyStream f pos) →
  (pulls n undisturbed (GenSuspended (StreamIter l)) st).1.1
  = yields (stream_take f pos n) n.
Proof.
  induction n as [|n IH]; intros pos st Hl; [reflexivity|].
  rewrite pulls_S, (gen_next_stream_iter _ _ _ _ Hl). simpl.
  destruct (f pos) as [x|] eqn:Hf.
  - specialize (IH (S pos) (set_heap (<[l := PyStream f (S pos)]> (heap st)) st)).
    destruct (pulls n _ _ _) as [[rs g] st']. simpl in *.
    rewrite yields_cons. f_equal. apply IH.
    apply list_lookup_insert_eq. by eapply lookup_lt_Some.
  - pose proof (pulls_finished n undisturbed st) as Hfin.
    destruct (pulls n _ _ _) as [[rs g] st']. simpl in *.
    by rewrite yields_nil, Hfin.
Qed.

(** ** The cursor of the instance over a list *)

Lemma iter_body_start_recoverable st l xs dc :
  self_dict st !! "iterable" = Some (VRef l) →
  self_dict st !! "deepcopy" = Some (VBool dc) →
  heap st !! l = Some (PyList xs) →
  copy_recoverable dc xs →
  ∃ c st1, iter_body_start st = (Ret (ListIter c 0), st1)
         ∧ heap st1 !! c = Some (PyList xs)
         ∧ self_dict st1 = self_dict st
         ∧ self_iter st1 = self_iter st.
Proof.
  intros Hsrc Hdc Hl Hrec.
  rewrite (iter_body_start_list st l xs dc Hsrc Hdc Hl).
  destruct dc; [|by exists l, st].
  destruct (items_deepcopy xs) as [ys|e] eqn:Hcopy.
  - apply items_deepcopy_Ret in Hcopy as ->.
    eexists _, _. split; [reflexivity|]. simpl.
    split; [|done]. by apply list_lookup_middle.
  - destruct (items_deepcopy_Raise _ _ Hcopy) as [-> | ->].
    + eexists _, _. split; [reflexivity|]. by simpl.
    + by destruct (Hrec eq_refl).
Qed.

Section list_cursor.
  Context (xs : list elem).

Lemma next_positioned i st n :
  positioned xs i st →
  counter st = Some (VInt n) →
  ∃ st', __next__ st = (match xs !! i with
                     | Some x => Ret x
                     | None => Raise StopIteration
                     end, st')
       ∧ (i < length xs → positioned xs (S i) st').
Proof.
  intros Hpos Hn. rewrite (next_counted _ _ Hn).
  assert (∃ c st1, gen_next (default __iter__ (self_iter st)) (counted n st)
                   = gen_next (GenSuspended (ListIter c i)) st1
                 ∧ heap st1 !! c = Some (PyList xs)) as (c & st1 & -> & Hc).
  { destruct Hpos as [[-> [Hit (l & dc & Hsrc & Hdc & Hl & Hrec)]]
                     | (c & Hit & Hc)].
    - assert (default __iter__ (self_iter st) = GenCreated) as ->
        by (destruct Hit as [-> | ->]; reflexivity).
      destruct (iter_body_start_recoverable (counted n st) l xs dc)
        as (c & st1 & Hstart & Hc & _); auto.
      + simpl. by rewrite lookup_insert_ne.
      + simpl. by rewrite lookup_insert_ne.
      + exists c, st1. by rewrite gen_next_created, Hstart.
    - exists c, (counted n st). by rewrite Hit. }
  rewrite (gen_next_list_iter _ _ _ _ Hc).
  destruct (xs !! i) as [x|] eqn:Hi.
  - eexists. split; [reflexivity|]. intros _. right. by exists c.
  - eexists. split; [reflexivity|]. intros Hlt.
    apply lookup_ge_None in Hi. lia.
Qed.

(** [k] calls from position [i] hand out the next [k] elements. *)
Lemma next_n_positioned k : ∀ i st n,
  positioned xs i st →
  counter st = Some (VInt n) →
  i + k ≤ length xs →
  ∃ st', next_n k st = (Ret (take k (drop i xs)), st')
       ∧ positioned xs (i + k) st'
       ∧ counter st' = Some (VInt (n + Z.of_nat k)).
Proof.
  induction k as [|k IH]; intros i st n Hpos Hn Hlen.
  - exists st. rewrite Nat.add_0_r, Z.add_0_r. by rewrite take_0.
  - destruct (next_positioned _ _ _ Hpos Hn) as (st1 & Hnext & Hpos1).
    pose proof (next_counter _ _ Hn) as Hn1. rewrite Hnext in Hn1.
    destruct (xs !! i) as [x|] eqn:Hi;
      [|apply lookup_ge_None in Hi; lia].
    destruct (IH (S i) st1 (n + 1)%Z) as (st' & Hrest & Hpos' & Hn');
      [apply Hpos1; lia | exact Hn1 | lia |].
    exists st'. split; [|split].
    + cbn [next_n]. rewrite bind_run, Hnext, bind_run, Hrest.
      by rewrite (drop_S _ _ _ Hi).
    + by replace (i + S k) with (S i + k) by lia.
    + rewrite Hn'. do 2 f_equal. lia.
Qed.

End list_cursor.

Lemma advance_n_next_n k : ∀ st,
  advance_n k st =
  match next_n k st with
  | (Ret _, st') => (Ret tt, st')
  | (Raise e, st') => (Raise e, st')
  end.
Proof.
  induction k as [|k IH]; intros st; [reflexivity|].
  rewrite advance_n_S. cbn [next_n]. rewrite bind_run.
  destruct (__next__ st) as [[x|e] st1]; [|reflexivity].
  rewrite IH, bind_run. destruct (next_n k st1) as [[xs|e] st2]; reflexivity.
Qed.

(** The counter after [k] calls that all handed out an element. *)
Lemma next_n_counter k : ∀ st c xs st',
  counter st = Some (VInt c) →
  next_n k st = (Ret xs, st') →
  counter st' = Some (VInt (c + Z.of_nat k)) ∧ length xs = k.
Proof.
  induction k as [|k IH]; intros st c xs st' Hc.
  - intros [= <- <-]. by rewrite Z.add_0_r.
  - cbn [next_n]. rewrite bind_run.
    pose proof (next_counter _ _ Hc) as Hc1.
    destruct (__next__ st) as [[x|e] st1]; [|discriminate].
    rewrite bind_run.
    destruct (next_n k st1) as [[ys|e] st2] eqn:Hrest; [|discriminate].
    intros [= <- <-].
    destruct (IH _ _ _ _ Hc1 Hrest) as [-> Hlen].
    split; [|by rewrite <- Hlen]. do 2 f_equal. lia.
Qed.

Lemma init_counter src dc h w : counter (__init__ src dc h w) = Some (VInt 0).
Proof. reflexivity. Qed.

Lemma init_unstarted l dc h w xs :
  h !! l = Some (PyList xs) →
  copy_recoverable dc xs →
  unstarted_on xs (reset_counter (__init__ (VRef l) (VBool dc) h w)).
Proof.
  intros Hl Hrec. split; [by left|]. by exists l, dc.
Qed.

(** ** restore_snapshot *)

Lemma set_iter_None_id st : self_iter st = None → set_iter None st = st.
Proof. destruct st; simpl; by intros ->. Qed.

Lemma next_unstarted st :
  self_iter st = Some GenCreated → __next__ (set_iter None st) = __next__ st.
Proof.
  intros H. rewrite !next_cases. destruct st as [d it h w].
  simpl in *. subst it. reflexivity.
Qed.

Lemma spec_restore_progress_run n st :
  spec_restore_progress n st
  = advance_n (Z.to_nat n) (set_iter None (reset_counter st)).
Proof. reflexivity. Qed.

(** C1, as stated, fails on the example of the description: after two
    calls of [__next__] that gave 1 and 2, [restore_snapshot()] leaves
    the counter at 2, but it has advanced the cursor it found, so the
    next call gives 5 and not 3; it is not the reset-discard-replay of
    the description. *)
Lemma C1_restore_keeps_cursor :
  (__next__ example_fresh).1 = Ret (EInt 1)
  ∧ (__next__ (__next__ example_fresh).2).1 = Ret (EInt 2)
  ∧ (∃ st3, restore_snapshot 3 VNone example_two = Some (Ret tt, st3)
          ∧ counter st3 = Some (VInt 2)
          ∧ (__next__ st3).1 = Ret (EInt 5)
          ∧ (__next__ st3).1 ≠ Ret (EInt 3))
  ∧ restore_snapshot 3 VNone example_two
    ≠ Some (spec_restore_progress 2 example_two).
Proof.
  split; [reflexivity|]. split; [reflexivity|]. split.
  - eexists. split; [vm_compute; reflexivity|].
    split; [reflexivity|]. split; [reflexivity|]. discriminate.
  - vm_compute. discriminate.
Qed.

(** C1, amended: for every instance and every target [n >= 0],
    [restore_snapshot(n)] returns (any fuel above [n] is enough), and it
    is: set the counter to 0, then call [__next__] [n] times on the
    cursor the instance has, stopping at the first exception. The cursor
    is kept, not discarded. When there is no cursor, or, for [n > 0], a
    cursor that has not been asked for an element, this is the
    reset-discard-replay of the description; when it returns normally
    the counter is [n]; the omitted target is the current counter. On
    the example, [restore_snapshot()] after two calls leaves the counter
    at 2 and the next element is 5; on an instance that has just had its
    state installed, [restore_snapshot(2)] leaves the counter at 2 and
    the next element is 3. *)
Theorem C1_restore_replays_on_kept_cursor (st : state) (n : Z) (fuel : nat) :
  (0 ≤ n)%Z →
  Z.to_nat n < fuel →
  restore_snapshot fuel (VInt n) st
    = Some (advance_n (Z.to_nat n) (reset_counter st))
  ∧ counter (reset_counter st) = Some (VInt 0)
  ∧ self_iter (reset_counter st) = self_iter st
  ∧ (self_iter st = None ∨ (self_iter st = Some GenCreated ∧ (0 < n)%Z) →
     restore_snapshot fuel (VInt n) st = Some (spec_restore_progress n st))
  ∧ (∀ st', restore_snapshot fuel (VInt n) st = Some (Ret tt, st') →
            counter st' = Some (VInt n))
  ∧ (∀ c, counter st = Some (VInt c) →
          restore_snapshot fuel VNone st = restore_snapshot fuel (VInt c) st)
  ∧ (∃ st3, restore_snapshot 3 VNone example_two = Some (Ret tt, st3)
          ∧ counter st3 = Some (VInt 2)
          ∧ (__next__ st3).1 = Ret (EInt 5))
  ∧ (∃ st3, restore_snapshot 3 (VInt 2) example_installed = Some (Ret tt, st3)
          ∧ counter st3 = Some (VInt 2)
          ∧ (__next__ st3).1 = Ret (EInt 3)).
Proof.
  intros Hn Hf.
  pose proof (restore_snapshot_advance n fuel st Hn Hf) as Hrun.
  split; [exact Hrun|]. split; [apply reset_counter_counter|].
  split; [reflexivity|]. split; [|split; [|split; [|split]]].
  - rewrite Hrun, spec_restore_progress_run. intros [Hit | [Hit Hpos]].
    + by rewrite set_iter_None_id.
    + destruct (Z.to_nat n) as [|k] eqn:Hk; [lia|].
      rewrite !advance_n_S. by rewrite next_unstarted.
  - intros st'. rewrite Hrun, advance_n_next_n.
    destruct (next_n _ _) as [[xs|e] st1] eqn:Hrest; [|discriminate].
    intros [= <-].
    destruct (next_n_counter _ _ _ _ _ (reset_counter_counter st) Hrest)
      as [-> _].
    do 2 f_equal. lia.
  - intros c Hc. by apply restore_snapshot_default.
  - eexists. split; [vm_compute; reflexivity|]. by split.
  - eexists. split; [vm_compute; reflexivity|]. by split.
Qed.

Lemma C1_restore_replays_on_kept_cursor_witness :
  restore_snapshot 3 (VInt 2) example_two
    = Some (advance_n (Z.to_nat 2) (reset_counter example_two))
  ∧ self_iter (reset_counter example_two) = self_iter example_two.
Proof.
  pose proof (C1_restore_replays_on_kept_cursor example_two 2 3) as H.
  destruct H as (H1 & _ & H3 & _); [lia | vm_compute; lia |].
  split; [exact H1 | exact H3].
Defined.

(** ** The counter and the elements handed out *)

(** C2 fails on the code: [__next__] adds one to [state_counter] before
    it asks the cursor for an element, so a call that ends in
    [StopIteration] is counted too. On a fresh wrapper over the empty
    list one call raises [StopIteration], hands out nothing and leaves
    the counter at 1; on the wrapper over [1, 2, 3, 4, 5] six calls
    hand out five elements and leave the counter at 6, the count that
    [save_snapshot] then returns, and [restore_snapshot(6)] on an
    instance with the installed state raises [StopIteration]. *)
Theorem C2_counter_counts_exhausted_call :
  (∃ st', __next__ empty_fresh = (Raise StopIteration, st')
        ∧ counter st' = Some (VInt 1))
  ∧ produced 1 empty_fresh = 0
  ∧ produced 6 example_fresh = 5
  ∧ counter (after_calls 6 example_fresh) = Some (VInt 6)
  ∧ (save_snapshot (after_calls 6 example_fresh)).1 = Ret (VInt 6)
  ∧ (∃ st', restore_snapshot 7 (VInt 6) example_installed
            = Some (Raise StopIteration, st')).
Proof.
  split; [eexists; split; [vm_compute; reflexivity | reflexivity]|].
  split; [reflexivity|]. split; [reflexivity|]. split; [reflexivity|].
  split; [reflexivity|]. eexists. vm_compute. reflexivity.
Qed.

(** ** restore_snapshot on a fresh instance *)

(** C3, as stated, fails where the list has exactly [k] elements: over
    [1], [restore_snapshot(1)] on a fresh instance returns, and the
    next call of [__next__] raises [StopIteration]: there is no element
    of index 1 to return. It also fails when the list holds an object
    whose duplication raises an error of its own: with the copy policy
    on, [restore_snapshot(1)] raises that error. *)
Lemma C3_no_element_at_the_length :
  (∃ st', restore_snapshot 2 (VInt 1) single_fresh = Some (Ret tt, st')
        ∧ (__next__ st').1 = Raise StopIteration
        ∧ [EInt 1] !! 1 = None)
  ∧ (∃ st', restore_snapshot 2 (VInt 1) refused_fresh
            = Some (Raise RuntimeError, st')).
Proof.
  split.
  - eexists. split; [vm_compute; reflexivity|]. by split.
  - eexists. vm_compute. reflexivity.
Qed.

(** C3, amended: for every list [xs] in the heap whose duplication,
    under the copy policy [dc], succeeds or fails as unsupported, and
    every [k <= length xs], [restore_snapshot(k)] on a fresh instance
    over it returns normally (any fuel above [k] is enough) with the
    counter at [k] and the cursor after the first [k] elements: the
    following calls of [__next__] hand out [xs !! k], [xs !! (k+1)], ...
    In particular the next call returns [xs !! k] when [k < length xs],
    and raises [StopIteration] when [k = length xs]. *)
Theorem C3_restore_on_fresh_positions_cursor
    (h : list pyobj) (w : list string) (l : loc) (xs : list elem)
    (dc : bool) (k fuel : nat) :
  h !! l = Some (PyList xs) →
  copy_recoverable dc xs →
  k ≤ length xs →
  k < fuel →
  ∃ st', restore_snapshot fuel (VInt (Z.of_nat k))
           (__init__ (VRef l) (VBool dc) h w) = Some (Ret tt, st')
       ∧ counter st' = Some (VInt (Z.of_nat k))
       ∧ (∀ x, xs !! k = Some x → (__next__ st').1 = Ret x)
       ∧ (k = length xs → (__next__ st').1 = Raise StopIteration)
       ∧ (∀ m, k + m ≤ length xs →
               (next_n m st').1 = Ret (take m (drop k xs))).
Proof.
  intros Hl Hrec Hk Hf.
  set (st := __init__ (VRef l) (VBool dc) h w).
  assert (positioned xs 0 (reset_counter st)) as Hpos
    by (left; split; [done | by apply init_unstarted]).
  destruct (next_n_positioned xs k 0 (reset_counter st) 0 Hpos
              (reset_counter_counter st) Hk) as (st' & Hrun & Hpos' & Hc').
  exists st'. split; [|split; [|split; [|split]]].
  - rewrite restore_snapshot_advance by lia.
    rewrite Nat2Z.id, advance_n_next_n, Hrun. reflexivity.
  - rewrite Hc'. do 2 f_equal.
  - intros x Hx.
    destruct (next_positioned _ _ _ _ Hpos' Hc') as (st2 & -> & _).
    simpl in *. by rewrite Hx.
  - intros ->.
    destruct (next_positioned _ _ _ _ Hpos' Hc') as (st2 & -> & _).
    simpl. by rewrite lookup_ge_None_2.
  - intros m Hm.
    destruct (next_n_positioned xs m _ st' _ Hpos' Hc') as (st2 & -> & _);
      [simpl; lia | reflexivity].
Qed.

Lemma C3_restore_on_fresh_positions_cursor_witness :
  ∃ st', restore_snapshot 3 (VInt (Z.of_nat 2)) example_fresh
           = Some (Ret tt, st')
       ∧ counter st' = Some (VInt (Z.of_nat 2))
       ∧ (__next__ st').1 = Ret (EInt 3).
Proof.
  destruct (C3_restore_on_fresh_positions_cursor example_heap [] 0
              [EInt 1; EInt 2; EInt 3; EInt 4; EInt 5] true 2 3)
    as (st' & Hrun & Hc & Hnext & _).
  - reflexivity.
  - intros _. vm_compute. discriminate.
  - simpl. lia.
  - lia.
  - exists st'. split; [exact Hrun|]. split; [exact Hc|].
    apply Hnext. reflexivity.
Defined.

(** ** save_snapshot *)

(** C8: for every fresh instance, whatever its source and copy policy,
    once [k] calls of [__next__] have each returned an element,
    [save_snapshot()] returns [k] and leaves the whole state as it is. *)
Theorem C8_save_snapshot_returns_count
    (src dc : value) (h : list pyobj) (w : list string)
    (k : nat) (xs : list elem) (st' : state) :
  next_n k (__init__ src dc h w) = (Ret xs, st') →
  save_snapshot st' = (Ret (VInt (Z.of_nat k)), st') ∧ length xs = k.
Proof.
  intros Hrun.
  destruct (next_n_counter _ _ _ _ _ (init_counter src dc h w) Hrun)
    as [Hc Hlen].
  split; [|exact Hlen].
  unfold save_snapshot, getattr. unfold counter in Hc. rewrite Hc.
  do 3 f_equal.
Qed.

Lemma C8_save_snapshot_returns_count_witness :
  save_snapshot (next_n 2 example_fresh).2
  = (Ret (VInt (Z.of_nat 2)), (next_n 2 example_fresh).2).
Proof.
  apply (C8_save_snapshot_returns_count (VRef 0) (VBool true) example_heap []
           2 [EInt 1; EInt 2] (next_n 2 example_fresh).2).
  vm_compute. reflexivity.
Defined.

(** ** The cursor across operations *)

Lemma save_snapshot_state st : (save_snapshot st).2 = st.
Proof. unfold save_snapshot, getattr. by destruct (_ !! _). Qed.

Lemma getstate_state st : (__getstate__ st).2 = st.
Proof. unfold __getstate__. by destruct (self_iter st). Qed.

Lemma len_state st : (__len__ st).2 = st.
Proof.
  unfold __len__, getattr; monad_unfold.
  destruct (self_dict st !! "iterable") as [[| |z|l]|]; try reflexivity.
  cbn. unfold deref; monad_unfold.
  destruct (heap st !! l) as [[xs|f pos]|]; reflexivity.
Qed.

Lemma loop_test_state t st :
  ((c ← getattr "state_counter"; py_lt c t) st).2 = st.
Proof.
  unfold getattr, py_lt; monad_unfold.
  destruct (self_dict st !! "state_counter") as [v|]; [|reflexivity].
  destruct (as_int v), (as_int t); reflexivity.
Qed.

Lemma mutate_iter l items st : self_iter (mutate l items st) = self_iter st.
Proof. unfold mutate. by destruct (heap st !! l) as [[]|]. Qed.

Lemma mutate_dict l items st : self_dict (mutate l items st) = self_dict st.
Proof. unfold mutate. by destruct (heap st !! l) as [[]|]. Qed.

(** The loop leaves the state as it found it, or leaves a cursor. *)
Lemma restore_loop_cursor fuel : ∀ t st r st',
  restore_loop fuel t st = Some (r, st') →
  (st' = st ∨ cursor_active st') ∧ (cursor_active st → cursor_active st').
Proof.
  induction fuel as [|fuel IH]; intros t st r st'; [discriminate|].
  cbn [restore_loop]. pose proof (loop_test_state t st) as Ht.
  destruct ((c ← getattr "state_counter"; py_lt c t) st) as [[[]|e] st1];
    simpl in Ht; subst st1.
  - pose proof (next_cursor_active st) as Hact.
    destruct (__next__ st) as [[x|e] st2]; simpl in Hact.
    + intros H. destruct (IH _ _ _ _ H) as [[-> | H1] H2]; auto.
    + intros [= <- <-]. auto.
  - intros [= <- <-]. auto.
  - intros [= <- <-]. auto.
Qed.

Lemma restore_snapshot_cursor fuel t st r st' :
  restore_snapshot fuel t st = Some (r, st') →
  (st' = st ∨ st' = reset_counter st ∨ cursor_active st')
  ∧ (cursor_active st → cursor_active st').
Proof.
  unfold restore_snapshot.
  assert (∀ t', restore_loop fuel t' (reset_counter st) = Some (r, st') →
    (st' = st ∨ st' = reset_counter st ∨ cursor_active st')
    ∧ (cursor_active st → cursor_active st')) as Hloop.
  { intros t' H. destruct (restore_loop_cursor _ _ _ _ _ H) as [[-> | H1] H2];
      auto. }
  destruct t as [|b|z|l]; try (cbn; apply Hloop).
  unfold getattr. destruct (self_dict st !! "state_counter") as [v|].
  - cbn. apply Hloop.
  - intros [= <- <-]. auto.
Qed.

(** No operation takes an active cursor away. *)
Lemma step_cursor_active st o st' :
  step st o st' → cursor_active st → cursor_active st'.
Proof.
  intros Hstep Hact. destruct Hstep.
  - apply next_cursor_active.
  - by rewrite save_snapshot_state.
  - by eapply restore_snapshot_cursor.
  - by rewrite getstate_state.
  - by eexists.
  - by rewrite len_state.
  - unfold cursor_active. by rewrite (frame_iter _ _ (gen_next_frame g st)).
  - unfold cursor_active. by rewrite mutate_iter.
Qed.

Lemma steps_cursor_active st os st' :
  steps st os st' → cursor_active st → cursor_active st'.
Proof.
  induction 1 as [|st o st1 os st2 Hstep _ IH]; [done|].
  intros Hact. apply IH. by eapply step_cursor_active.
Qed.

(** Until a cursor exists, the attributes are those [__init__] set. *)
Lemma step_unstarted src dc st o st' :
  step st o st' →
  self_dict st = init_dict src dc →
  cursor_active st' ∨ (self_dict st' = init_dict src dc).
Proof.
  intros Hstep Hd. destruct Hstep.
  - left. apply next_cursor_active.
  - right. by rewrite save_snapshot_state.
  - destruct (restore_snapshot_cursor _ _ _ _ _ H) as [[-> | [-> | Hact]] _];
      auto.
    right. simpl. rewrite Hd. by apply insert_id.
  - right. by rewrite getstate_state.
  - left. by eexists.
  - right. by rewrite len_state.
  - right. by rewrite (frame_dict _ _ (gen_next_frame g st)).
  - right. by rewrite mutate_dict.
Qed.

Lemma steps_unstarted src dc st os st' :
  steps st os st' →
  self_dict st = init_dict src dc →
  cursor_active st' ∨ (self_dict st' = init_dict src dc).
Proof.
  induction 1 as [|st o st1 os st2 Hstep Hsteps IH]; [auto|].
  intros Hd. destruct (step_unstarted _ _ _ _ _ Hstep Hd) as [Hact | Hd1].
  - left. by eapply steps_cursor_active.
  - by apply IH.
Qed.

Lemma restore_loop_S fuel t st :
  restore_loop (S fuel) t st =
  match (c ← getattr "state_counter"; py_lt c t) st with
  | (Ret true, st1) =>
      match __next__ st1 with
      | (Ret _, st2) => restore_loop fuel t st2
      | (Raise e, st2) => Some (Raise e, st2)
      end
  | (Ret false, st1) => Some (Ret tt, st1)
  | (Raise e, st1) => Some (Raise e, st1)
  end.
Proof. reflexivity. Qed.

(** The loop always comes to an end. *)
Lemma restore_loop_terminates k : ∀ st c t n,
  counter st = Some (VInt c) →
  as_int t = Some n →
  (n ≤ c + Z.of_nat k)%Z →
  ∃ r st', restore_loop (S k) t st = Some (r, st').
Proof.
  induction k as [|k IH]; intros st c t n Hc Ht Hn;
    rewrite restore_loop_S; unfold getattr; monad_unfold;
    pose proof Hc as Hc'; unfold counter in Hc'; rewrite Hc';
    unfold py_lt; cbn [as_int]; rewrite Ht; cbn [mret M_ret ret].
  - replace (c <? n)%Z with false by (symmetry; apply Z.ltb_ge; lia).
    eauto.
  - destruct (c <? n)%Z eqn:Hlt; [|eauto].
    apply Z.ltb_lt in Hlt.
    pose proof (next_counter _ _ Hc) as Hc1.
    destruct (__next__ st) as [[x|e] st2]; [|eauto].
    apply (IH st2 (c + 1)%Z t n); [exact Hc1 | exact Ht | lia].
Qed.

Lemma restore_snapshot_terminates t st :
  ∃ fuel r st', restore_snapshot fuel t st = Some (r, st').
Proof.
  assert (∀ t', ∃ fuel r st',
    restore_loop fuel t' (reset_counter st) = Some (r, st')) as Hloop.
  { intros t'. destruct (as_int t') as [n|] eqn:Ht.
    - exists (S (Z.to_nat n)).
      apply (restore_loop_terminates _ _ 0%Z t' n);
        [apply reset_counter_counter | exact Ht | lia].
    - exists 1. rewrite restore_loop_S. unfold getattr; monad_unfold.
      pose proof (reset_counter_counter st) as Hc. unfold counter in Hc.
      rewrite Hc. unfold py_lt. cbn [as_int]. rewrite Ht. cbn. eauto. }
  unfold restore_snapshot.
  destruct t as [|b|z|l]; try (cbn; apply Hloop).
  unfold getattr. destruct (self_dict st !! "state_counter") as [v|].
  - cbn. apply Hloop.
  - exists 0. eauto.
Qed.

(** Every operation can be carried out in every state. *)
Lemma step_total st o : ∃ st', step st o st'.
Proof.
  destruct o; try (eexists; constructor).
  destruct (restore_snapshot_terminates target_count st) as (fuel & r & st' & H).
  exists st'. by econstructor.
Qed.

(** ** __getstate__ and __setstate__ *)

Lemma init_dict_dom src dc :
  dom (init_dict src dc)
  = ({["iterable"; "deepcopy"; "state_counter"]} : gset string).
Proof.
  unfold init_dict. rewrite !dom_insert_L, dom_empty_L. set_solver.
Qed.

Lemma init_dict_no_iter src dc : init_dict src dc !! "iter" = None.
Proof. reflexivity. Qed.

(** C4: [__getstate__] raises its exception exactly when the instance
    has a cursor, and never changes the state. Without a cursor it
    returns the attributes of the instance, the cursor left out. It
    raises after any call of [__next__], whatever operations follow. An
    instance built by [__init__] that has no cursor yet holds exactly
    the source, the copy policy and the counter, and these are what is
    returned. *)
Theorem C4_getstate_raises_iff_cursor_active (st : state) :
  ((__getstate__ st).1 = Raise (Exception_ EmptyString) ↔ cursor_active st)
  ∧ (__getstate__ st).2 = st
  ∧ (¬ cursor_active st →
     ∃ d, (__getstate__ st).1 = Ret d
        ∧ d !! "iter" = None
        ∧ ∀ a, a ≠ "iter" → d !! a = self_dict st !! a)
  ∧ (∀ st0 os, steps (__next__ st0).2 os st →
               (__getstate__ st).1 = Raise (Exception_ EmptyString))
  ∧ (∀ src dc h w os,
       steps (__init__ src dc h w) os st →
       ¬ cursor_active st →
       (__getstate__ st).1 = Ret (init_dict src dc)
       ∧ dom (init_dict src dc)
         = ({["iterable"; "deepcopy"; "state_counter"]} : gset string)
       ∧ init_dict src dc !! "iterable" = Some src
       ∧ init_dict src dc !! "deepcopy" = Some dc
       ∧ init_dict src dc !! "state_counter" = Some (VInt 0)).
Proof.
  assert ((__getstate__ st).1 = Raise (Exception_ EmptyString) ↔ cursor_active st)
    as Hiff.
  { unfold __getstate__, cursor_active. destruct (self_iter st) as [g|]; simpl.
    - split; [by eexists | done].
    - split; [discriminate | by intros [? ?]]. }
  split; [exact Hiff|]. split; [apply getstate_state|].
  split; [|split].
  - intros Hno. unfold __getstate__, cursor_active in *.
    destruct (self_iter st) as [g|]; [destruct Hno; by eexists|].
    eexists. split; [reflexivity|]. split; [apply lookup_delete_eq|].
    intros a Ha. by apply lookup_delete_ne.
  - intros st0 os Hsteps. apply Hiff.
    eapply steps_cursor_active; [exact Hsteps | apply next_cursor_active].
  - intros src dc h w os Hsteps Hno.
    destruct (steps_unstarted src dc _ _ _ Hsteps eq_refl) as [Hact | Hd];
      [done|].
    split; [|split; [apply init_dict_dom | done]].
    unfold __getstate__, cursor_active in *.
    destruct (self_iter st) as [g|]; [destruct Hno; by eexists|].
    simpl. rewrite Hd. by rewrite delete_id.
Qed.

Lemma C4_getstate_raises_iff_cursor_active_witness :
  (__getstate__ example_two).1 = Raise (Exception_ EmptyString)
  ∧ (__getstate__ example_fresh).1 = Ret (init_dict (VRef 0) (VBool true)).
Proof.
  split.
  - destruct (C4_getstate_raises_iff_cursor_active example_two)
      as (_ & _ & _ & Hafter & _).
    apply (Hafter example_fresh [OpNext]).
    eapply steps_cons; [apply step_next | apply steps_nil].
  - destruct (C4_getstate_raises_iff_cursor_active example_fresh)
      as (_ & _ & _ & _ & Hinit).
    apply (Hinit (VRef 0) (VBool true) example_heap [] []).
    + apply steps_nil.
    + intros [g Hg]. discriminate.
Defined.

(** C5: [__setstate__] always returns; afterwards every attribute is
    the one of the given state and nothing of the old instance is left,
    and the cursor is already there, a generator of [__iter__] that has
    not started; the heap and the warnings are untouched. For a state
    that [__getstate__] returned, the attributes are that state. After
    [__init__] there is no cursor. *)
Theorem C5_setstate_installs_and_creates_cursor
    (d : gmap string value) (st : state) :
  ∃ st', __setstate__ d st = (Ret tt, st')
       ∧ (∀ a, a ≠ "iter" → self_dict st' !! a = d !! a)
       ∧ self_iter st' = Some __iter__
       ∧ self_iter st' ≠ None
       ∧ heap st' = heap st
       ∧ warnings st' = warnings st
       ∧ (∀ st0, (__getstate__ st0).1 = Ret d → self_dict st' = d)
       ∧ (∀ src dc h w, self_iter (__init__ src dc h w) = None).
Proof.
  eexists. split; [reflexivity|]. simpl.
  split; [intros a Ha; by apply lookup_delete_ne|].
  split; [reflexivity|]. split; [discriminate|].
  split; [reflexivity|]. split; [reflexivity|]. split; [|reflexivity].
  intros st0. unfold __getstate__. destruct (self_iter st0); [discriminate|].
  simpl. intros [= <-]. apply delete_id, lookup_delete_eq.
Qed.

Lemma C5_setstate_installs_and_creates_cursor_witness :
  self_dict example_installed = init_dict (VRef 0) (VBool true)
  ∧ self_iter example_installed = Some __iter__.
Proof.
  destruct (C5_setstate_installs_and_creates_cursor
              (init_dict (VRef 0) (VBool true))
              (mkState ∅ None example_heap []))
    as (st' & Hrun & _ & Hit & _ & _ & _ & Hd & _).
  injection Hrun as <-. split; [|exact Hit].
  apply (Hd example_fresh). reflexivity.
Defined.

(** C10: once a state has been installed, [__getstate__] raises its
    exception after any sequence of operations, and the state it is
    called in is left as it is: the cursor that [__setstate__] creates
    is never taken away. *)
Theorem C10_getstate_raises_after_setstate
    (st : state) (d : gmap string value) (os : list op) (st' : state) :
  steps (__setstate__ d st).2 os st' →
  __getstate__ st' = (Raise (Exception_ EmptyString), st')
  ∧ cursor_active st'
  ∧ (∀ o st'', step st' o st'' → cursor_active st'').
Proof.
  intros Hsteps.
  assert (cursor_active st') as Hact
    by (eapply steps_cursor_active; [exact Hsteps | by eexists]).
  split; [|split; [exact Hact|]].
  - unfold __getstate__. by destruct Hact as [g ->].
  - intros o st'' Hstep. by eapply step_cursor_active.
Qed.

Lemma C10_getstate_raises_after_setstate_witness :
  __getstate__ example_busy = (Raise (Exception_ EmptyString), example_busy).
Proof.
  apply (C10_getstate_raises_after_setstate
           (mkState ∅ None example_heap [])
           (init_dict (VRef 0) (VBool true))
           [OpNext; OpLen; OpSaveSnapshot; OpRestoreSnapshot (VInt 1)]
           example_busy).
  eapply steps_cons; [apply step_next|].
  eapply steps_cons; [apply step_len|].
  eapply steps_cons; [apply step_save|].
  eapply steps_cons; [|apply steps_nil].
  apply (step_restore _ 2 _ (Ret tt)). vm_compute. reflexivity.
Defined.

(** ** __len__ *)

Lemma next_stream st l f pos :
  heap st !! l = Some (PyStream f pos) →
  ∃ pos', heap (__next__ st).2 !! l = Some (PyStream f pos').
Proof.
  intros Hl. rewrite next_cases.
  destruct (self_dict st !! "state_counter") as [v|]; [|by exists pos].
  destruct (as_int v) as [c|]; [|by exists pos].
  pose proof (gen_next_frame (default __iter__ (self_iter st)) (counted c st)) as F.
  destruct (gen_next _ _) as [[r g'] st']. simpl in *.
  by apply (frame_stream _ _ F _ _ pos).
Qed.

Lemma after_calls_stream n : ∀ st l f pos,
  heap st !! l = Some (PyStream f pos) →
  ∃ pos', heap (after_calls n st) !! l = Some (PyStream f pos').
Proof.
  induction n as [|n IH]; intros st l f pos Hl; simpl; [by exists pos|].
  destruct (next_stream _ _ _ _ Hl) as [pos1 H1]. by apply (IH _ _ _ pos1).
Qed.

(** C9: whatever the copy policy and however many calls of [__next__]
    came before, [__len__] returns the length of the wrapped list and
    changes nothing; when the source has no length (a stream, or a value
    that is no container) it raises [TypeError]. *)
Theorem C9_len_is_length_of_source (st : state) (src : value) (n : nat) :
  self_dict st !! "iterable" = Some src →
  (∀ l items, src = VRef l → heap st !! l = Some (PyList items) →
     __len__ (after_calls n st)
     = (Ret (VInt (Z.of_nat (length items))), after_calls n st))
  ∧ ((∀ l, src = VRef l → ∃ f pos, heap st !! l = Some (PyStream f pos)) →
     __len__ (after_calls n st) = (Raise TypeError, after_calls n st)).
Proof.
  intros Hsrc.
  assert (self_dict (after_calls n st) !! "iterable" = Some src) as Hsrc'
    by (by rewrite after_calls_attr).
  split.
  - intros l items -> Hl.
    pose proof (after_calls_list n _ _ _ Hl) as Hl'.
    unfold __len__, getattr; monad_unfold. rewrite Hsrc'. cbn.
    unfold deref; monad_unfold. by rewrite Hl'.
  - intros Hno. unfold __len__, getattr; monad_unfold. rewrite Hsrc'.
    destruct src as [|b|z|l]; try reflexivity.
    destruct (Hno l eq_refl) as (f & pos & Hl).
    destruct (after_calls_stream n _ _ _ _ Hl) as [pos' Hl'].
    cbn. unfold deref; monad_unfold. by rewrite Hl'.
Qed.

Lemma C9_len_is_length_of_source_witness :
  __len__ (after_calls 3 example_fresh)
  = (Ret (VInt (Z.of_nat 5)), after_calls 3 example_fresh)
  ∧ __len__ (after_calls 3 stream_fresh)
    = (Raise TypeError, after_calls 3 stream_fresh).
Proof.
  split.
  - destruct (C9_len_is_length_of_source example_fresh (VRef 0) 3 eq_refl)
      as [Hlist _].
    apply (Hlist 0 [EInt 1; EInt 2; EInt 3; EInt 4; EInt 5]); reflexivity.
  - destruct (C9_len_is_length_of_source stream_fresh (VRef 0) 3 eq_refl)
      as [_ Hnone].
    apply Hnone. intros l [= <-].
    exists (λ i, Some (EInt (Z.of_nat i))), 0. reflexivity.
Defined.

(** ** Traversals and the copy policy *)

Lemma yields_0 xs : yields xs 0 = [].
Proof. reflexivity. Qed.

Lemma yields_take xs n : yields (take n xs) n = yields xs n.
Proof.
  unfold yields. rewrite take_take, Nat.min_id, length_take.
  do 2 f_equal. lia.
Qed.

Lemma mutate_keeps_other l items st c :
  l ≠ c → heap (mutate l items st) !! c = heap st !! c.
Proof.
  intros Hne. unfold mutate. destruct (heap st !! l) as [[xs|f pos]|]; try done.
  simpl. by rewrite list_lookup_insert_ne.
Qed.

Lemma pull_keeps_list g st c xs :
  heap st !! c = Some (PyList xs) →
  heap (gen_next g st).2 !! c = Some (PyList xs).
Proof. apply (frame_list _ _ (gen_next_frame g st)). Qed.

(** C6, as stated, fails for a mutation between two traversals: over
    [1, 2, 3] with the copy policy on, a first full traversal yields 1,
    2, 3; the caller then appends 4 to the list; the second traversal
    duplicates the list as it is now and yields 1, 2, 3, 4. *)
Lemma C6_second_traversal_sees_append :
  (pulls 4 undisturbed __iter__ triple_fresh).1.1
    = [Ret (EInt 1); Ret (EInt 2); Ret (EInt 3); Raise StopIteration]
  ∧ (pulls 5 undisturbed __iter__ triple_appended).1.1
    = [Ret (EInt 1); Ret (EInt 2); Ret (EInt 3); Ret (EInt 4);
       Raise StopIteration]
  ∧ (pulls 5 undisturbed __iter__ triple_appended).1.1
    ≠ yields [EInt 1; EInt 2; EInt 3] 5.
Proof.
  split; [reflexivity|]. split; [reflexivity|]. vm_compute. discriminate.
Qed.

(** C6, amended: with the copy policy on, every traversal obtained from
    [__iter__] over a list that can be duplicated yields, in order, the
    elements the list holds when the first element of that traversal is
    requested, and then stops, whatever the rest of the program does
    between the pulls, as long as it does not write to the duplicate,
    to which it has no reference. ([n] pulls give the first [n] of
    these elements; a pull past the end raises [StopIteration].) *)
Theorem C6_traversal_yields_list_at_first_pull
    (st : state) (l : loc) (xs : list elem)
    (env : nat → state → state) (n : nat) :
  self_dict st !! "iterable" = Some (VRef l) →
  self_dict st !! "deepcopy" = Some (VBool true) →
  heap st !! l = Some (PyList xs) →
  deep_copyable xs →
  (∀ k s, heap s !! length (heap st) = Some (PyList xs) →
          heap (env k s) !! length (heap st) = Some (PyList xs)) →
  (pulls n env __iter__ st).1.1 = yields xs n.
Proof.
  intros Hsrc Hdc Hl Hcopy Henv. destruct n as [|n]; [reflexivity|].
  unfold __iter__. rewrite pulls_created.
  rewrite (iter_body_start_list st l xs true Hsrc Hdc Hl).
  rewrite (deep_copyable_Ret _ Hcopy).
  rewrite (pulls_list_iter (length (heap st)) xs (S n) 0 env).
  - by rewrite drop_0.
  - simpl. by apply list_lookup_middle.
  - exact Henv.
Qed.

Lemma C6_traversal_yields_list_at_first_pull_witness :
  (pulls 4 overwriting __iter__ triple_fresh).1.1
  = yields [EInt 1; EInt 2; EInt 3] 4.
Proof.
  apply (C6_traversal_yields_list_at_first_pull triple_fresh 0
           [EInt 1; EInt 2; EInt 3] overwriting 4).
  - reflexivity.
  - reflexivity.
  - reflexivity.
  - exists [EInt 1; EInt 2; EInt 3]. reflexivity.
  - intros k s Hs. unfold overwriting.
    rewrite mutate_keeps_other; [exact Hs | simpl; lia].
Defined.

Lemma gen_next_suspended_warnings it st :
  warnings (gen_next (GenSuspended it) st).2 = warnings st
  ∧ length (heap (gen_next (GenSuspended it) st).2) = length (heap st).
Proof.
  unfold gen_next, gen_resume, iter_next, deref; monad_unfold.
  destruct it as [l i|l].
  - destruct (heap st !! l) as [[xs|f pos]|]; try done.
    by destruct (xs !! i).
  - destruct (heap st !! l) as [[xs|f pos]|]; try done.
    destruct (f pos); [|done]. simpl. by rewrite length_insert.
Qed.

(** C7, as stated, fails when the duplication fails with an error that
    is not a [TypeError]: over a list holding an object whose
    [__deepcopy__] raises an error of its own, the first pull raises
    that error, no warning is emitted and nothing is iterated. *)
Lemma C7_refused_copy_propagates :
  (deepcopy (VRef 0) refused_fresh).1 = Raise RuntimeError
  ∧ gen_next __iter__ refused_fresh
    = (Raise RuntimeError, GenFinished, refused_fresh)
  ∧ warnings (gen_next __iter__ refused_fresh).2 = [].
Proof. split; [reflexivity|]. split; reflexivity. Qed.

Lemma pulls_undisturbed_S n g st :
  pulls (S n) undisturbed g st =
    let '(r, g', st') := gen_next g st in
    let '(rs, g'', st'') := pulls n undisturbed g' st' in
    (r :: rs, g'', st'').
Proof. reflexivity. Qed.

Lemma pulls_undisturbed_finished n : ∀ st,
  pulls n undisturbed GenFinished st
  = (replicate n (Raise StopIteration), GenFinished, st).
Proof.
  induction n as [|n IH]; intros st; [reflexivity|].
  by rewrite pulls_undisturbed_S, gen_next_finished, IH.
Qed.

(** The start of the body when the duplication fails with anything but
    a [TypeError]: the failure leaves the body, the state is as it was. *)
Lemma iter_body_start_refused st l o e :
  self_dict st !! "iterable" = Some (VRef l) →
  self_dict st !! "deepcopy" = Some (VBool true) →
  heap st !! l = Some o →
  (deepcopy (VRef l) st).1 = Raise e →
  e ≠ TypeError →
  iter_body_start st = (Raise e, st).
Proof.
  intros Hsrc Hdc Hl Hcopy Hne. revert Hcopy.
  unfold deepcopy, deref; monad_unfold. rewrite Hl.
  destruct o as [xs|f pos]; [|by intros [= <-]].
  rewrite (iter_body_start_list st l xs true Hsrc Hdc Hl).
  destruct (items_deepcopy xs) as [ys|e']; cbn; [discriminate|].
  intros [= ->]. by destruct e.
Qed.

(** C7, amended: with the copy policy on, when [copy.deepcopy] of the
    source raises [TypeError], the first pull on a generator of
    [__iter__] emits the warning once, makes no duplicate, and goes on
    as a pull on an iterator over the source object itself; an
    undisturbed traversal yields the elements of that object in order.
    When [copy.deepcopy] raises anything else, the first pull raises
    that exception and the generator is finished: every later pull
    raises [StopIteration], and the state is left as it was, so no
    warning has been emitted and no duplicate made. *)
Theorem C7_falls_back_on_TypeError_only
    (st : state) (l : loc) (o : pyobj) (n : nat) :
  self_dict st !! "iterable" = Some (VRef l) →
  self_dict st !! "deepcopy" = Some (VBool true) →
  heap st !! l = Some o →
  ((deepcopy (VRef l) st).1 = Raise TypeError →
   gen_next __iter__ st
     = gen_next (GenSuspended (direct_iter l o))
                (set_warnings (warnings st ++ [deepcopy_warning]) st)
   ∧ warnings (gen_next __iter__ st).2 = warnings st ++ [deepcopy_warning]
   ∧ length (heap (gen_next __iter__ st).2) = length (heap st)
   ∧ (pulls n undisturbed __iter__ st).1.1 = yields (source_elems o n) n)
  ∧ (∀ e, (deepcopy (VRef l) st).1 = Raise e →
          e ≠ TypeError →
          gen_next __iter__ st = (Raise e, GenFinished, st)
          ∧ pulls (S n) undisturbed __iter__ st
            = (Raise e :: replicate n (Raise StopIteration), GenFinished, st)).
Proof.
  intros Hsrc Hdc Hl. split.
  - intros Hcopy.
    pose proof (iter_body_start_unsupported st l o Hsrc Hdc Hl Hcopy)
      as Hstart.
    assert (gen_next __iter__ st
            = gen_next (GenSuspended (direct_iter l o))
                (set_warnings (warnings st ++ [deepcopy_warning]) st))
      as Hfirst.
    { unfold __iter__. by rewrite gen_next_created, Hstart. }
    split; [exact Hfirst|]. rewrite Hfirst.
    destruct (gen_next_suspended_warnings (direct_iter l o)
                (set_warnings (warnings st ++ [deepcopy_warning]) st))
      as [Hw Hh].
    split; [exact Hw|]. split; [exact Hh|].
    destruct n as [|n]; [by destruct o|].
    unfold __iter__. rewrite pulls_created, Hstart.
    destruct o as [xs|f pos]; simpl direct_iter; simpl source_elems.
    + rewrite (pulls_list_iter l xs (S n) 0 undisturbed); [|exact Hl|done].
      by rewrite drop_0, yields_take.
    + by rewrite (pulls_stream_iter l f (S n) pos).
  - intros e Hcopy Hne.
    pose proof (iter_body_start_refused st l o e Hsrc Hdc Hl Hcopy Hne)
      as Hstart.
    assert (gen_next __iter__ st = (Raise e, GenFinished, st)) as Hfirst
      by (unfold __iter__; by rewrite gen_next_created, Hstart).
    split; [exact Hfirst|].
    by rewrite pulls_undisturbed_S, Hfirst, pulls_undisturbed_finished.
Qed.

Lemma C7_falls_back_on_TypeError_only_witness :
  (pulls 3 undisturbed __iter__ handle_fresh).1.1
    = yields [EInt 1; EHandle 0 CopyUnsupported] 3
  ∧ (pulls 3 undisturbed __iter__ stream_fresh).1.1
    = yields [EInt 0; EInt 1; EInt 2] 3
  ∧ pulls 3 undisturbed __iter__ refused_fresh
    = ([Raise RuntimeError; Raise StopIteration; Raise StopIteration],
       GenFinished, refused_fresh).
Proof.
  split; [|split].
  - destruct (C7_falls_back_on_TypeError_only handle_fresh 0
                (PyList [EInt 1; EHandle 0 CopyUnsupported]) 3)
      as [Hback _]; [reflexivity | reflexivity | reflexivity |].
    apply Hback. reflexivity.
  - destruct (C7_falls_back_on_TypeError_only stream_fresh 0
                (PyStream (λ i, Some (EInt (Z.of_nat i))) 0) 3)
      as [Hback _]; [reflexivity | reflexivity | reflexivity |].
    apply Hback. reflexivity.
  - destruct (C7_falls_back_on_TypeError_only refused_fresh 0
                (PyList [EInt 1; EHandle 0 CopyRefused]) 2)
      as [_ Hprop]; [reflexivity | reflexivity | reflexivity |].
    apply (Hprop RuntimeError); [reflexivity | discriminate].
Defined.

(** * Further properties of the class *)

(** ** Traversals that bypass [__next__] *)

Lemma pulls_undisturbed_frame n : ∀ g st,
  frame st (pulls n undisturbed g st).2.
Proof.
  induction n as [|n IH]; intros g st; [apply frame_refl|].
  rewrite pulls_S. pose proof (gen_next_frame g st) as F.
  destruct (gen_next g st) as [[r g'] st1].
  specialize (IH g' (undisturbed O st1)).
  destruct (pulls n _ _ _) as [[rs g''] st2]. simpl in *.
  eapply frame_trans; [exact F | exact IH].
Qed.

(** X1: a traversal through a generator of [__iter__] never touches the
    instance: after any number of pulls on any such generator the
    attributes and the cursor are what they were, so [save_snapshot]
    returns what it returned before, whatever was consumed. *)
Theorem X1_bare_traversal_is_not_counted (n : nat) (g : generator)
    (st : state) :
  self_dict (pulls n undisturbed g st).2 = self_dict st
  ∧ self_iter (pulls n undisturbed g st).2 = self_iter st
  ∧ (save_snapshot (pulls n undisturbed g st).2).1 = (save_snapshot st).1.
Proof.
  pose proof (pulls_undisturbed_frame n g st) as F.
  split; [apply (frame_dict _ _ F)|]. split; [apply (frame_iter _ _ F)|].
  unfold save_snapshot, getattr. rewrite (frame_dict _ _ F).
  by destruct (self_dict st !! "state_counter").
Qed.

Lemma truthy_state v st : (truthy v st).2 = st.
Proof.
  destruct v as [|b|z|l]; try reflexivity.
  unfold truthy, deref; monad_unfold.
  by destruct (heap st !! l) as [[xs|f pos]|].
Qed.

(** With a copy policy that is not true, the body starts the loop on
    the source itself. *)
Lemma iter_body_start_nocopy st v dcv :
  self_dict st !! "iterable" = Some v →
  self_dict st !! "deepcopy" = Some dcv →
  (truthy dcv st).1 = Ret false →
  iter_body_start st = py_iter v st.
Proof.
  intros Hsrc Hdc Hfalse. pose proof (truthy_state dcv st) as Hst.
  unfold iter_body_start, getattr; monad_unfold. rewrite Hsrc, Hdc.
  destruct (truthy dcv st) as [[b|e] st1]; simpl in *; [|discriminate].
  injection Hfalse as ->. by subst st1.
Qed.

Lemma py_iter_list st l xs :
  heap st !! l = Some (PyList xs) →
  py_iter (VRef l) st = (Ret (ListIter l 0), st).
Proof. intros Hl. unfold py_iter, deref; monad_unfold. by rewrite Hl. Qed.

Lemma py_iter_stream st l f pos :
  heap st !! l = Some (PyStream f pos) →
  py_iter (VRef l) st = (Ret (StreamIter l), st).
Proof. intros Hl. unfold py_iter, deref; monad_unfold. by rewrite Hl. Qed.

Lemma mutate_lookup l xs ys st :
  heap st !! l = Some (PyList xs) →
  heap (mutate l ys st) !! l = Some (PyList ys).
Proof.
  intros Hl. unfold mutate. rewrite Hl. simpl.
  apply list_lookup_insert_eq. by eapply lookup_lt_Some.
Qed.

(** X2: when the copy policy is false (or any value Python takes for
    false), a traversal over a list reads the list itself: the first
    pull makes no duplicate and emits no warning, and when the caller
    replaces the items after the first pull, the remaining pulls hand
    out the new items from index 1 on. *)
Theorem X2_uncopied_traversal_reads_live_list
    (st : state) (l : loc) (xs ys : list elem) (dcv : value)
    (x : elem) (n : nat) :
  self_dict st !! "iterable" = Some (VRef l) →
  self_dict st !! "deepcopy" = Some dcv →
  (truthy dcv st).1 = Ret false →
  heap st !! l = Some (PyList xs) →
  xs !! 0 = Some x →
  gen_next __iter__ st = (Ret x, GenSuspended (ListIter l 1), st)
  ∧ (pulls (S n) (mutate_after_first l ys) __iter__ st).1.1
    = Ret x :: yields (drop 1 ys) n.
Proof.
  intros Hsrc Hdc Hfalse Hl Hx.
  pose proof (iter_body_start_nocopy st _ _ Hsrc Hdc Hfalse) as Hstart.
  rewrite (py_iter_list _ _ _ Hl) in Hstart. split.
  - unfold __iter__. rewrite gen_next_created, Hstart.
    by rewrite (gen_next_list_iter _ _ _ _ Hl), Hx.
  - unfold __iter__. rewrite pulls_created, Hstart, pulls_S.
    rewrite (gen_next_list_iter _ _ _ _ Hl), Hx.
    pose proof (pulls_list_iter l ys n 1
                  (λ k, mutate_after_first l ys (S k))
                  (mutate_after_first l ys 0 st)) as Hrest.
    destruct (pulls n _ _ _) as [[rs g] st']. simpl in *. f_equal.
    apply Hrest; [by eapply mutate_lookup | done].
Qed.

Lemma X2_uncopied_traversal_reads_live_list_witness :
  (pulls 3 (mutate_after_first 0 [EInt 7; EInt 8; EInt 9])
         __iter__ triple_nocopy).1.1
  = Ret (EInt 1) :: yields (drop 1 [EInt 7; EInt 8; EInt 9]) 2.
Proof.
  apply (X2_uncopied_traversal_reads_live_list triple_nocopy 0
           [EInt 1; EInt 2; EInt 3] [EInt 7; EInt 8; EInt 9]
           (VBool false) (EInt 1) 2); reflexivity.
Defined.

(** The whole of an undisturbed traversal of a stream: what it yields,
    where it leaves the stream, and that it emits nothing. *)
Lemma pulls_stream_full l f n : ∀ pos st,
  heap st !! l = Some (PyStream f pos) →
  (pulls n undisturbed (GenSuspended (StreamIter l)) st).1.1
    = yields (stream_take f pos n) n
  ∧ heap (pulls n undisturbed (GenSuspended (StreamIter l)) st).2 !! l
    = Some (PyStream f (pos + length (stream_take f pos n)))
  ∧ warnings (pulls n undisturbed (GenSuspended (StreamIter l)) st).2
    = warnings st.
Proof.
  induction n as [|n IH]; intros pos st Hl.
  - simpl. by rewrite Nat.add_0_r.
  - rewrite pulls_undisturbed_S, (gen_next_stream_iter _ _ _ _ Hl).
    cbn [stream_take]. destruct (f pos) as [x|] eqn:Hf.
    + specialize (IH (S pos)
        (set_heap (<[l := PyStream f (S pos)]> (heap st)) st)).
      destruct (pulls n _ _ _) as [[rs g] st']. simpl in *.
      destruct IH as (Hy & Hh & Hw);
        [apply list_lookup_insert_eq; by eapply lookup_lt_Some|].
      rewrite yields_cons, Hy, Hh, Hw. split; [done|]. split; [|done].
      do 2 f_equal. lia.
    + rewrite pulls_undisturbed_finished. simpl.
      by rewrite yields_nil, Nat.add_0_r.
Qed.

Lemma deepcopy_stream st l f pos :
  heap st !! l = Some (PyStream f pos) →
  (deepcopy (VRef l) st).1 = Raise TypeError.
Proof. intros Hl. unfold deepcopy, deref; monad_unfold. by rewrite Hl. Qed.

(** One undisturbed traversal of a wrapped generator, the copy policy
    on. *)
Lemma traversal_of_stream st l f pos n :
  self_dict st !! "iterable" = Some (VRef l) →
  self_dict st !! "deepcopy" = Some (VBool true) →
  heap st !! l = Some (PyStream f pos) →
  (pulls (S n) undisturbed __iter__ st).1.1
    = yields (stream_take f pos (S n)) (S n)
  ∧ heap (pulls (S n) undisturbed __iter__ st).2 !! l
    = Some (PyStream f (pos + length (stream_take f pos (S n))))
  ∧ warnings (pulls (S n) undisturbed __iter__ st).2
    = warnings st ++ [deepcopy_warning]
  ∧ self_dict (pulls (S n) undisturbed __iter__ st).2 = self_dict st.
Proof.
  intros Hsrc Hdc Hl.
  split; [|split; [|split]];
    try (unfold __iter__; rewrite pulls_created,
           (iter_body_start_unsupported st l _ Hsrc Hdc Hl
              (deepcopy_stream _ _ _ _ Hl));
         simpl direct_iter;
         by apply (pulls_stream_full l f (S n) pos
                     (set_warnings (warnings st ++ [deepcopy_warning]) st))).
  apply (frame_dict _ _ (pulls_undisturbed_frame (S n) __iter__ st)).
Qed.

(** X3: a wrapped generator object cannot be duplicated
    ([copy.deepcopy] raises [TypeError] on it), so with the copy policy
    on every traversal calls [warnings.warn] once and then consumes the
    one generator: a second traversal starts where the first one
    stopped, and [warnings.warn] has been called twice. *)
Theorem X3_generator_is_shared_between_traversals
    (st : state) (l : loc) (f : nat → option elem) (pos n1 n2 : nat) :
  self_dict st !! "iterable" = Some (VRef l) →
  self_dict st !! "deepcopy" = Some (VBool true) →
  heap st !! l = Some (PyStream f pos) →
  (pulls (S n1) undisturbed __iter__ st).1.1
    = yields (stream_take f pos (S n1)) (S n1)
  ∧ (pulls (S n2) undisturbed __iter__
       (pulls (S n1) undisturbed __iter__ st).2).1.1
    = yields (stream_take f (pos + length (stream_take f pos (S n1))) (S n2))
             (S n2)
  ∧ warnings (pulls (S n2) undisturbed __iter__
                (pulls (S n1) undisturbed __iter__ st).2).2
    = warnings st ++ [deepcopy_warning; deepcopy_warning].
Proof.
  intros Hsrc Hdc Hl.
  destruct (traversal_of_stream st l f pos n1 Hsrc Hdc Hl)
    as (Hy1 & Hh1 & Hw1 & Hd1).
  split; [exact Hy1|].
  destruct (traversal_of_stream (pulls (S n1) undisturbed __iter__ st).2
              l f (pos + length (stream_take f pos (S n1))) n2)
    as (Hy2 & _ & Hw2 & _); [by rewrite Hd1 | by rewrite Hd1 | exact Hh1 |].
  split; [exact Hy2|]. by rewrite Hw2, Hw1, <- app_assoc.
Qed.

Lemma X3_generator_is_shared_between_traversals_witness :
  (pulls 2 undisturbed __iter__ short_stream_fresh).1.1
    = [Ret (EInt 10); Ret (EInt 11)]
  ∧ (pulls 2 undisturbed __iter__
       (pulls 2 undisturbed __iter__ short_stream_fresh).2).1.1
    = [Ret (EInt 12); Raise StopIteration].
Proof.
  destruct (X3_generator_is_shared_between_traversals short_stream_fresh 0
              (λ i, if decide (i < 3) then Some (EInt (10 + Z.of_nat i))
                    else None) 0 1 1)
    as (H1 & H2 & _); [reflexivity | reflexivity | reflexivity |].
  split; [exact H1 | exact H2].
Defined.

(** ** Two traversals at once *)

Lemma pulls_alternating_S n g1 g2 st :
  pulls_alternating (S n) g1 g2 st =
    let '(r1, g1', st1) := gen_next g1 st in
    let '(r2, g2', st2) := gen_next g2 st1 in
    let '(rs1, rs2, st') := pulls_alternating n g1' g2' st2 in
    (r1 :: rs1, r2 :: rs2, st').
Proof. reflexivity. Qed.

Lemma pulls_alternating_finished n : ∀ st,
  pulls_alternating n GenFinished GenFinished st
  = (replicate n (Raise StopIteration), replicate n (Raise StopIteration), st).
Proof.
  induction n as [|n IH]; intros st; [reflexivity|].
  by rewrite pulls_alternating_S, !gen_next_finished, IH.
Qed.

Lemma pulls_alternating_list_iters c1 c2 xs n : ∀ i st,
  heap st !! c1 = Some (PyList xs) →
  heap st !! c2 = Some (PyList xs) →
  pulls_alternating n (GenSuspended (ListIter c1 i))
                      (GenSuspended (ListIter c2 i)) st
  = (yields (drop i xs) n, yields (drop i xs) n, st).
Proof.
  induction n as [|n IH]; intros i st H1 H2; [reflexivity|].
  rewrite pulls_alternating_S, (gen_next_list_iter _ _ _ _ H1).
  destruct (xs !! i) as [x|] eqn:Hi.
  - rewrite (gen_next_list_iter _ _ _ _ H2), Hi, (IH (S i) st H1 H2).
    by rewrite (drop_S _ _ _ Hi), yields_cons.
  - rewrite (gen_next_list_iter _ _ _ _ H2), Hi, pulls_alternating_finished.
    rewrite drop_ge by (by apply lookup_ge_None). by rewrite yields_nil.
Qed.

(** X4: with the copy policy on, two generators of [__iter__] over a
    list that can be duplicated, pulled in turn, each yield the whole
    list in order: each works on a duplicate of its own, two duplicates
    are added to the heap and nothing else changes. *)
Theorem X4_interleaved_copying_traversals_are_independent
    (st : state) (l : loc) (xs : list elem) (n : nat) :
  self_dict st !! "iterable" = Some (VRef l) →
  self_dict st !! "deepcopy" = Some (VBool true) →
  heap st !! l = Some (PyList xs) →
  deep_copyable xs →
  pulls_alternating (S n) __iter__ __iter__ st
  = (yields xs (S n), yields xs (S n),
     set_heap (heap st ++ [PyList xs; PyList xs]) st).
Proof.
  intros Hsrc Hdc Hl Hcopy. apply deep_copyable_Ret in Hcopy.
  set (st1 := set_heap (heap st ++ [PyList xs]) st).
  set (st2 := set_heap (heap st1 ++ [PyList xs]) st1).
  assert (iter_body_start st = (Ret (ListIter (length (heap st)) 0), st1))
    as Hs1 by (by rewrite (iter_body_start_list st l xs true), Hcopy).
  assert (heap st1 !! l = Some (PyList xs)) as Hl1
    by (by apply lookup_app_l_Some).
  assert (iter_body_start st1 = (Ret (ListIter (length (heap st1)) 0), st2))
    as Hs2 by (by rewrite (iter_body_start_list st1 l xs true), Hcopy).
  assert (heap st1 !! length (heap st) = Some (PyList xs)) as Hc1
    by (by apply list_lookup_middle).
  assert (heap st2 !! length (heap st) = Some (PyList xs)) as Hc1'
    by (by apply lookup_app_l_Some).
  assert (heap st2 !! length (heap st1) = Some (PyList xs)) as Hc2
    by (by apply list_lookup_middle).
  assert (st2 = set_heap (heap st ++ [PyList xs; PyList xs]) st) as Hst2.
  { unfold st2, st1, set_heap. simpl. by rewrite <- app_assoc. }
  unfold __iter__. rewrite pulls_alternating_S, gen_next_created, Hs1.
  rewrite (gen_next_list_iter _ _ _ _ Hc1).
  destruct (xs !! 0) as [x|] eqn:H0.
  - rewrite gen_next_created, Hs2, (gen_next_list_iter _ _ _ _ Hc2), H0.
    rewrite (pulls_alternating_list_iters _ _ xs n 1 st2 Hc1' Hc2).
    rewrite <- Hst2. rewrite <- (drop_0 xs) at 3 4.
    by rewrite (drop_S _ _ _ H0), !yields_cons.
  - rewrite gen_next_created, Hs2, (gen_next_list_iter _ _ _ _ Hc2), H0.
    rewrite pulls_alternating_finished, <- Hst2.
    apply lookup_ge_None in H0. destruct xs; [|simpl in H0; lia].
    by rewrite !yields_nil.
Qed.

Lemma X4_interleaved_copying_traversals_are_independent_witness :
  (pulls_alternating 4 __iter__ __iter__ triple_fresh).1
  = (yields [EInt 1; EInt 2; EInt 3] 4, yields [EInt 1; EInt 2; EInt 3] 4).
Proof.
  rewrite (X4_interleaved_copying_traversals_are_independent triple_fresh 0
             [EInt 1; EInt 2; EInt 3] 3); try reflexivity.
  by exists [EInt 1; EInt 2; EInt 3].
Defined.

(** ** Pickling and resuming *)

Lemma getstate_no_cursor st d :
  self_dict st !! "iter" = None →
  (__getstate__ st).1 = Ret d →
  self_iter st = None ∧ d = self_dict st.
Proof.
  intros Hno. unfold __getstate__. destruct (self_iter st); [discriminate|].
  simpl. intros [= <-]. split; [done|]. by apply delete_id.
Qed.

(** X5: extracting the state of an instance that has no cursor yet and
    installing it into a new object (same heap) gives an instance with
    the same attributes, on which the next call of [__next__], and so
    every later one, returns what it returns on the original and leaves
    the same state; [__len__] answers the same. *)
Theorem X5_getstate_setstate_round_trip
    (st : state) (d d0 : gmap string value) (it0 : option generator)
    (k : nat) :
  self_dict st !! "iter" = None →
  (__getstate__ st).1 = Ret d →
  self_dict (__setstate__ d (mkState d0 it0 (heap st) (warnings st))).2
    = self_dict st
  ∧ __next__ (__setstate__ d (mkState d0 it0 (heap st) (warnings st))).2
    = __next__ st
  ∧ next_n (S k) (__setstate__ d (mkState d0 it0 (heap st) (warnings st))).2
    = next_n (S k) st
  ∧ (__len__ (__setstate__ d (mkState d0 it0 (heap st) (warnings st))).2).1
    = (__len__ st).1.
Proof.
  intros Hno Hget. destruct (getstate_no_cursor _ _ Hno Hget) as [Hit ->].
  set (st' := (__setstate__ _ _).2).
  assert (self_dict st' = self_dict st) as Hd
    by (unfold st'; simpl; by apply delete_id).
  assert (self_iter st' = Some GenCreated) as Hit' by reflexivity.
  assert (set_iter None st' = st) as Hback.
  { destruct st as [d it h w]. unfold st'. simpl in *. subst it.
    unfold set_iter. simpl. f_equal. by apply delete_id. }
  assert (__next__ st' = __next__ st) as Hnext
    by (by rewrite <- (next_unstarted _ Hit'), Hback).
  split; [exact Hd|]. split; [exact Hnext|]. split.
  - cbn [next_n]. by rewrite !bind_run, Hnext.
  - unfold __len__, getattr; monad_unfold. rewrite Hd.
    destruct (self_dict st !! "iterable") as [v|]; [|done].
    destruct v as [| | |l]; try done.
    unfold py_len, deref; monad_unfold. change (heap st') with (heap st).
    by destruct (heap st !! l) as [[xs|f pos]|].
Qed.

Lemma X5_getstate_setstate_round_trip_witness :
  next_n 3 (__setstate__ (init_dict (VRef 0) (VBool true))
              (mkState ∅ (Some GenFinished) example_heap [])).2
  = next_n 3 example_fresh.
Proof.
  apply (X5_getstate_setstate_round_trip example_fresh
           (init_dict (VRef 0) (VBool true)) ∅ (Some GenFinished) 2);
    reflexivity.
Defined.

Lemma unstarted_on_reset xs st :
  unstarted_on xs st → unstarted_on xs (reset_counter st).
Proof.
  intros [Hit (l & dc & Hsrc & Hdc & Hl & Hrec)]. split; [exact Hit|].
  exists l, dc. simpl. by rewrite !lookup_insert_ne.
Qed.

Lemma unstarted_on_setstate xs st d l dc :
  d !! "iterable" = Some (VRef l) →
  d !! "deepcopy" = Some (VBool dc) →
  heap st !! l = Some (PyList xs) →
  copy_recoverable dc xs →
  unstarted_on xs (__setstate__ d st).2.
Proof.
  intros Hsrc Hdc Hl Hrec. split; [by right|].
  exists l, dc. simpl. by rewrite !lookup_delete_ne.
Qed.

(** X6: checkpoint and resume. A fresh instance over a list has its
    state extracted, hands out [k] elements, and [save_snapshot]
    returns [k]. A new object in which the extracted state is installed
    and [restore_snapshot(k)] is called (any heap that holds the same
    list under the same reference) then hands out the same elements as
    the original goes on to hand out. *)
Theorem X6_snapshot_resumes_where_original_stopped
    (h h' : list pyobj) (w w' : list string) (l : loc) (xs : list elem)
    (dc : bool) (k m fuel : nat) :
  h !! l = Some (PyList xs) →
  h' !! l = Some (PyList xs) →
  copy_recoverable dc xs →
  k + m ≤ length xs →
  k < fuel →
  ∃ d st_k st_r,
    (__getstate__ (__init__ (VRef l) (VBool dc) h w)).1 = Ret d
    ∧ next_n k (__init__ (VRef l) (VBool dc) h w) = (Ret (take k xs), st_k)
    ∧ (save_snapshot st_k).1 = Ret (VInt (Z.of_nat k))
    ∧ restore_snapshot fuel (VInt (Z.of_nat k)) (unpickled d h' w')
      = Some (Ret tt, st_r)
    ∧ (next_n m st_r).1 = Ret (take m (drop k xs))
    ∧ (next_n m st_k).1 = Ret (take m (drop k xs)).
Proof.
  intros Hl Hl' Hrec Hkm Hf.
  set (st0 := __init__ (VRef l) (VBool dc) h w).
  assert (positioned xs 0 st0) as Hpos0.
  { left. split; [done|]. split; [by left|]. by exists l, dc. }
  destruct (next_n_positioned xs k 0 st0 0 Hpos0 (init_counter _ _ _ _))
    as (st_k & Hrun & Hposk & Hck); [lia|].
  set (d := init_dict (VRef l) (VBool dc)).
  assert (positioned xs 0 (reset_counter (unpickled d h' w'))) as Hposr.
  { left. split; [done|]. apply unstarted_on_reset.
    by apply (unstarted_on_setstate xs _ d l dc). }
  destruct (next_n_positioned xs k 0 _ 0 Hposr (reset_counter_counter _))
    as (st_r & Hrunr & Hposkr & Hckr); [lia|].
  exists d, st_k, st_r. rewrite drop_0 in Hrun.
  split; [reflexivity|]. split; [exact Hrun|]. split; [|split; [|split]].
  - unfold save_snapshot, getattr. unfold counter in Hck. by rewrite Hck.
  - rewrite restore_snapshot_advance by lia.
    by rewrite Nat2Z.id, advance_n_next_n, Hrunr.
  - destruct (next_n_positioned xs m _ st_r _ Hposkr Hckr) as (st2 & -> & _);
      [simpl; lia | reflexivity].
  - destruct (next_n_positioned xs m _ st_k _ Hposk Hck) as (st2 & -> & _);
      [simpl; lia | reflexivity].
Qed.

Lemma X6_snapshot_resumes_where_original_stopped_witness :
  ∃ st_r,
    restore_snapshot 3 (VInt (Z.of_nat 2))
      (unpickled (init_dict (VRef 0) (VBool true)) example_heap [])
    = Some (Ret tt, st_r)
    ∧ (next_n 3 st_r).1 = Ret [EInt 3; EInt 4; EInt 5].
Proof.
  destruct (X6_snapshot_resumes_where_original_stopped
              example_heap example_heap [] [] 0
              [EInt 1; EInt 2; EInt 3; EInt 4; EInt 5] true 2 3 3)
    as (d & st_k & st_r & Hd & _ & _ & Hres & Hnext & _).
  - reflexivity.
  - reflexivity.
  - intros _. vm_compute. discriminate.
  - simpl. lia.
  - lia.
  - injection Hd as <-. exists st_r. split; [exact Hres | exact Hnext].
Defined.

(** X14: [__setstate__] rewinds. Whatever cursor the instance had, once
    a state naming a list is installed the following calls of
    [__next__] hand out that list from its first element, and the
    counter goes on from the installed count. *)
Theorem X14_setstate_rewinds
    (st : state) (d : gmap string value) (l : loc) (dc : bool)
    (xs : list elem) (c : Z) (m : nat) :
  d !! "iterable" = Some (VRef l) →
  d !! "deepcopy" = Some (VBool dc) →
  d !! "state_counter" = Some (VInt c) →
  heap st !! l = Some (PyList xs) →
  copy_recoverable dc xs →
  m ≤ length xs →
  ∃ st', next_n m (__setstate__ d st).2 = (Ret (take m xs), st')
       ∧ counter st' = Some (VInt (c + Z.of_nat m)).
Proof.
  intros Hsrc Hdc Hc Hl Hrec Hm.
  assert (positioned xs 0 (__setstate__ d st).2) as Hpos
    by (left; split; [done | by apply (unstarted_on_setstate xs st d l dc)]).
  assert (counter (__setstate__ d st).2 = Some (VInt c)) as Hc'
    by (unfold counter; simpl; by rewrite lookup_delete_ne).
  destruct (next_n_positioned xs m 0 _ c Hpos Hc') as (st' & Hrun & _ & Hcm);
    [lia|].
  exists st'. rewrite drop_0 in Hrun. by split.
Qed.

Lemma X14_setstate_rewinds_witness :
  ∃ st', next_n 2 (__setstate__ (init_dict (VRef 0) (VBool true))
                     example_two).2
         = (Ret (take 2 [EInt 1; EInt 2; EInt 3; EInt 4; EInt 5]), st').
Proof.
  destruct (X14_setstate_rewinds example_two
              (init_dict (VRef 0) (VBool true)) 0 true
              [EInt 1; EInt 2; EInt 3; EInt 4; EInt 5] 0 2)
    as (st' & Hrun & _); try reflexivity.
  - intros _. vm_compute. discriminate.
  - simpl. lia.
  - by exists st'.
Defined.

(** ** The end of the source *)

(** A call of [__next__] that raises leaves the cursor finished. *)
Lemma next_raise_finished st c e st' :
  counter st = Some (VInt c) →
  __next__ st = (Raise e, st') →
  self_iter st' = Some GenFinished ∧ counter st' = Some (VInt (c + 1)).
Proof.
  intros Hc Hrun. pose proof (next_counter _ _ Hc) as Hc'.
  rewrite Hrun in Hc'. split; [|exact Hc'].
  rewrite (next_counted _ _ Hc) in Hrun. unfold gen_next in Hrun.
  destruct (gen_resume _ _) as [[[x it]|e'] st1]; [discriminate|].
  by injection Hrun as _ <-.
Qed.

Lemma next_on_finished st c :
  self_iter st = Some GenFinished →
  counter st = Some (VInt c) →
  (__next__ st).1 = Raise StopIteration.
Proof.
  intros Hit Hc. by rewrite (next_counted _ _ Hc), Hit.
Qed.

Lemma after_calls_finished n : ∀ st c,
  self_iter st = Some GenFinished →
  counter st = Some (VInt c) →
  self_iter (after_calls n st) = Some GenFinished
  ∧ counter (after_calls n st) = Some (VInt (c + Z.of_nat n)).
Proof.
  induction n as [|n IH]; intros st c Hit Hc.
  - by rewrite Z.add_0_r.
  - pose proof (next_on_finished _ _ Hit Hc) as Hraise.
    destruct (__next__ st) as [r st1] eqn:Hrun. simpl in Hraise. subst r.
    destruct (next_raise_finished _ _ _ _ Hc Hrun) as [Hit1 Hc1].
    cbn [after_calls]. rewrite Hrun. simpl.
    destruct (IH _ _ Hit1 Hc1) as [-> ->]. split; [done|].
    do 2 f_equal. lia.
Qed.

(** X10: a call of [__next__] that raises, whatever it raises, ends the
    cursor for good: every later call raises [StopIteration], and each
    of them still adds one to the counter. *)
Theorem X10_failed_next_is_never_retried
    (st st' : state) (c : Z) (e : exn) (n : nat) :
  counter st = Some (VInt c) →
  __next__ st = (Raise e, st') →
  (__next__ (after_calls n st')).1 = Raise StopIteration
  ∧ counter (after_calls n st') = Some (VInt (c + 1 + Z.of_nat n)).
Proof.
  intros Hc Hrun.
  destruct (next_raise_finished _ _ _ _ Hc Hrun) as [Hit1 Hc1].
  destruct (after_calls_finished n _ _ Hit1 Hc1) as [Hitn Hcn].
  split; [by eapply next_on_finished | exact Hcn].
Qed.

Lemma X10_failed_next_is_never_retried_witness :
  (__next__ (after_calls 3 (__next__ refused_fresh).2)).1
  = Raise StopIteration.
Proof.
  apply (X10_failed_next_is_never_retried refused_fresh
           (__next__ refused_fresh).2 0 RuntimeError 3).
  - reflexivity.
  - vm_compute. reflexivity.
Defined.

Lemma produced_finished n : ∀ st c,
  self_iter st = Some GenFinished →
  counter st = Some (VInt c) →
  produced n st = 0.
Proof.
  induction n as [|n IH]; intros st c Hit Hc; [reflexivity|].
  pose proof (next_on_finished _ _ Hit Hc) as Hraise.
  cbn [produced]. destruct (__next__ st) as [r st1] eqn:Hrun.
  simpl in Hraise. subst r.
  destruct (next_raise_finished _ _ _ _ Hc Hrun) as [Hit1 Hc1].
  by apply (IH _ (c + 1)%Z).
Qed.

Section counting.
  Context (xs : list elem).

Lemma produced_positioned n : ∀ i st c,
  positioned xs i st →
  counter st = Some (VInt c) →
  i ≤ length xs →
  produced n st = n `min` (length xs - i).
Proof.
  induction n as [|n IH]; intros i st c Hpos Hc Hi; [reflexivity|].
  destruct (next_positioned _ _ _ _ Hpos Hc) as (st1 & Hrun & Hpos1).
  pose proof (next_counter _ _ Hc) as Hc1. rewrite Hrun in Hc1.
  cbn [produced]. rewrite Hrun.
  destruct (xs !! i) as [x|] eqn:Hx.
  - apply lookup_lt_Some in Hx.
    rewrite (IH (S i) st1 (c + 1)%Z); [lia | by apply Hpos1 | done | lia].
  - apply lookup_ge_None in Hx.
    destruct (next_raise_finished _ _ _ _ Hc Hrun) as [Hit1 _].
    rewrite (produced_finished n _ _ Hit1 Hc1). lia.
Qed.

(** From position [i], asking for more elements than are left ends in
    [StopIteration], one call after the last element. *)
Lemma advance_n_exhausts k : ∀ i st c,
  positioned xs i st →
  counter st = Some (VInt c) →
  i ≤ length xs →
  length xs - i < k →
  ∃ st', advance_n k st = (Raise StopIteration, st')
       ∧ counter st' = Some (VInt (c + Z.of_nat (length xs - i) + 1)).
Proof.
  induction k as [|k IH]; intros i st c Hpos Hc Hi Hk; [lia|].
  destruct (next_positioned _ _ _ _ Hpos Hc) as (st1 & Hrun & Hpos1).
  pose proof (next_counter _ _ Hc) as Hc1. rewrite Hrun in Hc1.
  rewrite advance_n_S, Hrun.
  destruct (xs !! i) as [x|] eqn:Hx.
  - apply lookup_lt_Some in Hx.
    destruct (IH (S i) st1 (c + 1)%Z) as (st' & Hrest & Hc');
      [by apply Hpos1 | done | lia | lia |].
    exists st'. split; [exact Hrest|]. rewrite Hc'. do 2 f_equal. lia.
  - apply lookup_ge_None in Hx. exists st1. split; [done|].
    simpl in Hc1. rewrite Hc1. do 2 f_equal. lia.
Qed.

Lemma positioned_reset i st :
  positioned xs i st → positioned xs i (reset_counter st).
Proof.
  intros [[-> Hun] | Hcur].
  - left. split; [done|]. by apply unstarted_on_reset.
  - by right.
Qed.
End counting.

Lemma init_positioned l dc h w xs :
  h !! l = Some (PyList xs) →
  copy_recoverable dc xs →
  positioned xs 0 (__init__ (VRef l) (VBool dc) h w).
Proof.
  intros Hl Hrec. left. split; [done|]. split; [by left|]. by exists l, dc.
Qed.

(** X11: [state_counter] counts the calls of [__next__], not the
    elements: on a fresh instance over a list of [m] elements, of [n]
    calls exactly [min n m] hand out an element, and the counter after
    them is [n]. *)
Theorem X11_counter_counts_calls
    (h : list pyobj) (w : list string) (l : loc) (xs : list elem)
    (dc : bool) (n : nat) :
  h !! l = Some (PyList xs) →
  copy_recoverable dc xs →
  produced n (__init__ (VRef l) (VBool dc) h w) = n `min` length xs
  ∧ counter (after_calls n (__init__ (VRef l) (VBool dc) h w))
    = Some (VInt (Z.of_nat n)).
Proof.
  intros Hl Hrec. split.
  - rewrite (produced_positioned xs n 0 _ 0);
      [by rewrite Nat.sub_0_r | by apply init_positioned | done | lia].
  - by rewrite (after_calls_counter n _ 0).
Qed.

Lemma X11_counter_counts_calls_witness :
  produced 8 example_fresh = 8 `min` 5
  ∧ counter (after_calls 8 example_fresh) = Some (VInt (Z.of_nat 8)).
Proof.
  apply (X11_counter_counts_calls example_heap [] 0
           [EInt 1; EInt 2; EInt 3; EInt 4; EInt 5] true 8).
  - reflexivity.
  - intros _. vm_compute. discriminate.
Defined.

(** ** restore_snapshot at its edges *)

(** X7: asking a fresh instance over a list of [m] elements to restore
    a count above [m] raises [StopIteration] out of
    [restore_snapshot], after all [m] elements have been consumed, and
    leaves the counter at [m + 1]. *)
Theorem X7_restore_beyond_source_raises
    (h : list pyobj) (w : list string) (l : loc) (xs : list elem)
    (dc : bool) (n fuel : nat) :
  h !! l = Some (PyList xs) →
  copy_recoverable dc xs →
  length xs < n →
  n < fuel →
  ∃ st', restore_snapshot fuel (VInt (Z.of_nat n))
           (__init__ (VRef l) (VBool dc) h w)
         = Some (Raise StopIteration, st')
       ∧ counter st' = Some (VInt (Z.of_nat (length xs) + 1)).
Proof.
  intros Hl Hrec Hn Hf.
  rewrite restore_snapshot_advance by lia. rewrite Nat2Z.id.
  destruct (advance_n_exhausts xs n 0
              (reset_counter (__init__ (VRef l) (VBool dc) h w)) 0)
    as (st' & Hrun & Hc);
    [apply positioned_reset; by apply init_positioned
    | apply reset_counter_counter | lia | lia |].
  exists st'. split; [by rewrite Hrun|].
  rewrite Hc. do 2 f_equal. lia.
Qed.

Lemma X7_restore_beyond_source_raises_witness :
  ∃ st', restore_snapshot 8 (VInt (Z.of_nat 7)) example_fresh
         = Some (Raise StopIteration, st')
       ∧ counter st' = Some (VInt (Z.of_nat 5 + 1)).
Proof.
  apply (X7_restore_beyond_source_raises example_heap [] 0
           [EInt 1; EInt 2; EInt 3; EInt 4; EInt 5] true 7 8).
  - reflexivity.
  - intros _. vm_compute. discriminate.
  - simpl. lia.
  - lia.
Defined.

Lemma restore_snapshot_nonpositive n fuel st :
  (n ≤ 0)%Z →
  restore_snapshot (S fuel) (VInt n) st = Some (Ret tt, reset_counter st).
Proof.
  intros Hn. unfold restore_snapshot. cbn.
  change (set_dict _ st) with (reset_counter st).
  unfold getattr; monad_unfold.
  pose proof (reset_counter_counter st) as Hc. unfold counter in Hc.
  rewrite Hc. cbn.
  by replace (0 <? n)%Z with false by (symmetry; apply Z.ltb_ge; lia).
Qed.

(** X8: [restore_snapshot] with a target of 0 or less calls [__next__]
    not at all: it only sets the counter to 0. On an instance over a
    list that has handed out [k] elements the counter is then 0 while
    the next element handed out is still the one of index [k]. *)
Theorem X8_restore_to_zero_keeps_position
    (h : list pyobj) (w : list string) (l : loc) (xs : list elem)
    (dc : bool) (k fuel : nat) (n : Z) :
  h !! l = Some (PyList xs) →
  copy_recoverable dc xs →
  k ≤ length xs →
  (n ≤ 0)%Z →
  ∃ st_k st',
    next_n k (__init__ (VRef l) (VBool dc) h w) = (Ret (take k xs), st_k)
    ∧ restore_snapshot (S fuel) (VInt n) st_k = Some (Ret tt, st')
    ∧ counter st' = Some (VInt 0)
    ∧ (__next__ st').1 = match xs !! k with
                         | Some x => Ret x
                         | None => Raise StopIteration
                         end.
Proof.
  intros Hl Hrec Hk Hn.
  destruct (next_n_positioned xs k 0 _ 0 (init_positioned l dc h w xs Hl Hrec)
              (init_counter _ _ _ _)) as (st_k & Hrun & Hpos & Hc); [lia|].
  rewrite drop_0 in Hrun. exists st_k, (reset_counter st_k).
  split; [exact Hrun|]. split; [by apply restore_snapshot_nonpositive|].
  split; [apply reset_counter_counter|].
  destruct (next_positioned xs k (reset_counter st_k) 0) as (st2 & -> & _);
    [by apply positioned_reset | apply reset_counter_counter | done].
Qed.

Lemma X8_restore_to_zero_keeps_position_witness :
  ∃ st_k st',
    next_n 2 example_fresh = (Ret [EInt 1; EInt 2], st_k)
    ∧ restore_snapshot 1 (VInt 0) st_k = Some (Ret tt, st')
    ∧ counter st' = Some (VInt 0)
    ∧ (__next__ st').1 = Ret (EInt 3).
Proof.
  apply (X8_restore_to_zero_keeps_position example_heap [] 0
           [EInt 1; EInt 2; EInt 3; EInt 4; EInt 5] true 2 0 0).
  - reflexivity.
  - intros _. vm_compute. discriminate.
  - simpl. lia.
  - lia.
Defined.

(** X9: [restore_snapshot()] without a target, on an instance over a
    list that has handed out [k] elements, does not go back: it hands
    out [k] more. The counter is [k] again and the following calls of
    [__next__] hand out the list from index [2k]. *)
Theorem X9_restore_without_target_advances_again
    (h : list pyobj) (w : list string) (l : loc) (xs : list elem)
    (dc : bool) (k m fuel : nat) :
  h !! l = Some (PyList xs) →
  copy_recoverable dc xs →
  k + k + m ≤ length xs →
  k < fuel →
  ∃ st_k st',
    next_n k (__init__ (VRef l) (VBool dc) h w) = (Ret (take k xs), st_k)
    ∧ restore_snapshot fuel VNone st_k = Some (Ret tt, st')
    ∧ counter st' = Some (VInt (Z.of_nat k))
    ∧ (next_n m st').1 = Ret (take m (drop (k + k) xs)).
Proof.
  intros Hl Hrec Hk Hf.
  destruct (next_n_positioned xs k 0 _ 0 (init_positioned l dc h w xs Hl Hrec)
              (init_counter _ _ _ _)) as (st_k & Hrun & Hpos & Hc); [lia|].
  rewrite drop_0 in Hrun. rewrite Z.add_0_l in Hc. simpl in Hpos.
  destruct (next_n_positioned xs k k (reset_counter st_k) 0)
    as (st' & Hrun' & Hpos' & Hc');
    [by apply positioned_reset | apply reset_counter_counter | lia |].
  exists st_k, st'. split; [exact Hrun|]. split; [|split].
  - rewrite (restore_snapshot_default _ _ _ Hc).
    rewrite restore_snapshot_advance by lia.
    by rewrite Nat2Z.id, advance_n_next_n, Hrun'.
  - by rewrite Hc'.
  - destruct (next_n_positioned xs m _ st' _ Hpos' Hc') as (st2 & -> & _);
      [lia | reflexivity].
Qed.

Lemma X9_restore_without_target_advances_again_witness :
  ∃ st_k st',
    next_n 2 example_fresh = (Ret [EInt 1; EInt 2], st_k)
    ∧ restore_snapshot 3 VNone st_k = Some (Ret tt, st')
    ∧ counter st' = Some (VInt (Z.of_nat 2))
    ∧ (next_n 1 st').1 = Ret [EInt 5].
Proof.
  apply (X9_restore_without_target_advances_again example_heap [] 0
           [EInt 1; EInt 2; EInt 3; EInt 4; EInt 5] true 2 1 3).
  - reflexivity.
  - intros _. vm_compute. discriminate.
  - simpl. lia.
  - lia.
Defined.

(** X13: a target that is neither a number nor [None] makes
    [restore_snapshot] raise [TypeError] at the first test of its loop,
    by when the counter has already been set to 0: the old count is
    lost, the cursor is as it was. *)
Theorem X13_restore_with_unordered_target
    (t : value) (fuel : nat) (st : state) :
  as_int t = None →
  t ≠ VNone →
  restore_snapshot (S fuel) t st = Some (Raise TypeError, reset_counter st).
Proof.
  intros Ht Hnone. unfold restore_snapshot.
  assert (restore_loop (S fuel) t (reset_counter st)
          = Some (Raise TypeError, reset_counter st)) as Hloop.
  { rewrite restore_loop_S. unfold getattr; monad_unfold.
    pose proof (reset_counter_counter st) as Hc. unfold counter in Hc.
    rewrite Hc. unfold py_lt. cbn [as_int]. by rewrite Ht. }
  destruct t as [|b|z|l]; try done.
Qed.

Lemma X13_restore_with_unordered_target_witness :
  restore_snapshot 1 (VRef 0) example_two
  = Some (Raise TypeError, reset_counter example_two).
Proof.
  apply (X13_restore_with_unordered_target (VRef 0) 0 example_two);
    [reflexivity | discriminate].
Defined.

(** ** What the class never does *)

Lemma restore_loop_list fuel : ∀ t st r st' l xs,
  restore_loop fuel t st = Some (r, st') →
  heap st !! l = Some (PyList xs) →
  heap st' !! l = Some (PyList xs).
Proof.
  induction fuel as [|fuel IH]; intros t st r st' l xs; [discriminate|].
  rewrite restore_loop_S. pose proof (loop_test_state t st) as Ht.
  destruct ((c ← getattr "state_counter"; py_lt c t) st) as [[[]|e] st1];
    simpl in Ht; subst st1.
  - intros Hrun Hl. pose proof (next_list _ _ _ Hl) as Hl1.
    destruct (__next__ st) as [[x|e] st2]; simpl in Hl1.
    + by eapply IH.
    + by injection Hrun as _ <-.
  - by intros [= _ <-].
  - by intros [= _ <-].
Qed.

Lemma restore_snapshot_list fuel t st r st' l xs :
  restore_snapshot fuel t st = Some (r, st') →
  heap st !! l = Some (PyList xs) →
  heap st' !! l = Some (PyList xs).
Proof.
  unfold restore_snapshot.
  assert (∀ t', restore_loop fuel t' (reset_counter st) = Some (r, st') →
    heap st !! l = Some (PyList xs) → heap st' !! l = Some (PyList xs))
    as Hloop by (intros t' H Hl; by eapply restore_loop_list).
  destruct t as [|b|z|l']; try (cbn; apply Hloop).
  unfold getattr. destruct (self_dict st !! "state_counter") as [v|].
  - cbn. apply Hloop.
  - by intros [= _ <-].
Qed.

Lemma step_class_op_list st o st' l xs :
  step st o st' →
  class_op o = true →
  heap st !! l = Some (PyList xs) →
  heap st' !! l = Some (PyList xs).
Proof.
  intros Hstep Hop Hl. destruct Hstep; try done.
  - by apply next_list.
  - by rewrite save_snapshot_state.
  - by eapply restore_snapshot_list.
  - by rewrite getstate_state.
  - by rewrite len_state.
  - by apply pull_keeps_list.
Qed.

(** X12: the class never writes to a wrapped list. Through any sequence
    of its operations ([__next__], [save_snapshot], [restore_snapshot],
    [__getstate__], [__setstate__], [__len__], pulls on generators of
    [__iter__]), with or without copying, every list of the heap keeps
    its items. *)
Theorem X12_class_never_writes_a_list
    (st st' : state) (os : list op) (l : loc) (xs : list elem) :
  steps st os st' →
  Forall (λ o, class_op o = true) os →
  heap st !! l = Some (PyList xs) →
  heap st' !! l = Some (PyList xs).
Proof.
  induction 1 as [|st o st1 os st2 Hstep _ IH]; [done|].
  intros Hall Hl. apply Forall_cons in Hall as [Hop Hall].
  apply IH; [exact Hall|]. by eapply step_class_op_list.
Qed.

Lemma X12_class_never_writes_a_list_witness :
  heap (__len__ (__next__ (__next__ triple_nocopy).2).2).2 !! 0
  = Some (PyList [EInt 1; EInt 2; EInt 3]).
Proof.
  apply (X12_class_never_writes_a_list triple_nocopy _
           [OpNext; OpNext; OpLen] 0 [EInt 1; EInt 2; EInt 3]).
  - eapply steps_cons; [apply step_next|].
    eapply steps_cons; [apply step_next|].
    eapply steps_cons; [apply step_len | apply steps_nil].
  - repeat constructor.
  - reflexivity.
Defined.

(** ** Ill-formed states and sources *)



(** X16: a source that is no container at all (a number, a boolean,
    [None]) is accepted by [__init__]; the first [__next__] counts the
    call and raises [TypeError] when the loop asks for an iterator,
    with no warning and no duplicate, and [__len__] raises [TypeError]. *)
Theorem X16_source_that_is_not_iterable
    (v : value) (dc : bool) (h : list pyobj) (w : list string) :
  (∀ l, v ≠ VRef l) →
  ∃ st', __next__ (__init__ v (VBool dc) h w) = (Raise TypeError, st')
       ∧ counter st' = Some (VInt 1)
       ∧ self_iter st' = Some GenFinished
       ∧ heap st' = h
       ∧ warnings st' = w
       ∧ (__len__ (__init__ v (VBool dc) h w)).1 = Raise TypeError.
Proof.
  intros Hv.
  destruct v as [|b|z|l]; [| | |by destruct (Hv l)];
    destruct dc; (eexists; split; [reflexivity | done]).
Qed.

Lemma X16_source_that_is_not_iterable_witness :
  (__next__ number_fresh).1 = Raise TypeError
  ∧ (__len__ number_fresh).1 = Raise TypeError.
Proof.
  destruct (X16_source_that_is_not_iterable (VInt 5) true [] [])
    as (st' & Hrun & _ & _ & _ & _ & Hlen); [discriminate|].
  split; [|exact Hlen]. unfold number_fresh. by rewrite Hrun.
Defined.

(** ** The copy policy on the path of [__next__] *)

Section cursor_at.
  Context (c : loc) (xs : list elem).

Lemma next_cursor_at i st n x :
  cursor_at c xs i st →
  counter st = Some (VInt n) →
  xs !! i = Some x →
  __next__ st
  = (Ret x, set_iter (Some (GenSuspended (ListIter c (S i)))) (counted n st)).
Proof.
  intros [Hit Hc] Hn Hx. rewrite (next_counted _ _ Hn), Hit. simpl default.
  rewrite (gen_next_list_iter c i xs) by exact Hc. by rewrite Hx.
Qed.

(** Calls of [__next__] on a started cursor change the counter and
    the cursor, nothing else. *)
Lemma next_n_cursor_at k : ∀ i st n,
  cursor_at c xs i st →
  counter st = Some (VInt n) →
  i + k ≤ length xs →
  ∃ st', next_n k st = (Ret (take k (drop i xs)), st')
       ∧ cursor_at c xs (i + k) st'
       ∧ heap st' = heap st
       ∧ warnings st' = warnings st.
Proof.
  induction k as [|k IH]; intros i st n Hcur Hn Hlen.
  - exists st. by rewrite Nat.add_0_r, take_0.
  - destruct (xs !! i) as [x|] eqn:Hx;
      [|apply lookup_ge_None in Hx; lia].
    pose proof (next_cursor_at i st n x Hcur Hn Hx) as Hrun.
    pose proof (next_counter _ _ Hn) as Hn1. rewrite Hrun in Hn1.
    destruct (IH (S i)
                (set_iter (Some (GenSuspended (ListIter c (S i))))
                          (counted n st)) (n + 1)%Z)
      as (st' & Hrest & Hcur' & Hh & Hw);
      [split; [done | apply Hcur] | exact Hn1 | lia |].
    exists st'. split; [|split; [|split]].
    + cbn [next_n]. rewrite bind_run, Hrun, bind_run, Hrest.
      by rewrite (drop_S _ _ _ Hx).
    + by replace (i + S k) with (S i + k) by lia.
    + by rewrite Hh.
    + by rewrite Hw.
Qed.
End cursor_at.

(** The first call of [__next__] on a fresh instance that copies, over
    a list that can be duplicated: the cursor is on a new duplicate. *)
Lemma first_next_copied h w l xs x :
  h !! l = Some (PyList xs) →
  deep_copyable xs →
  xs !! 0 = Some x →
  ∃ st1, __next__ (__init__ (VRef l) (VBool true) h w) = (Ret x, st1)
       ∧ cursor_at (length h) xs 1 st1
       ∧ heap st1 = h ++ [PyList xs]
       ∧ warnings st1 = w
       ∧ counter st1 = Some (VInt 1).
Proof.
  intros Hl Hcopy Hx. apply deep_copyable_Ret in Hcopy.
  set (st := __init__ (VRef l) (VBool true) h w).
  assert (__next__ st
          = (Ret x, set_iter (Some (GenSuspended (ListIter (length h) 1)))
                      (set_heap (h ++ [PyList xs]) (counted 0 st)))) as Hrun.
  { rewrite (next_counted st 0 eq_refl). simpl default.
    rewrite gen_next_created.
    rewrite (iter_body_start_list (counted 0 st) l xs true eq_refl eq_refl Hl).
    rewrite Hcopy.
    rewrite (gen_next_list_iter (length h) 0 xs)
      by (by apply list_lookup_middle).
    by rewrite Hx. }
  pose proof (next_counter st 0 eq_refl) as Hc. rewrite Hrun in Hc.
  eexists. split; [exact Hrun|].
  split; [split; [reflexivity | by apply list_lookup_middle]|].
  split; [reflexivity|]. split; [reflexivity | exact Hc].
Qed.

(** The same when the duplication is unsupported: the cursor is on the
    source, and the warning has been emitted. *)
Lemma first_next_fallback h w l xs x :
  h !! l = Some (PyList xs) →
  items_deepcopy xs = Raise TypeError →
  xs !! 0 = Some x →
  ∃ st1, __next__ (__init__ (VRef l) (VBool true) h w) = (Ret x, st1)
       ∧ cursor_at l xs 1 st1
       ∧ heap st1 = h
       ∧ warnings st1 = w ++ [deepcopy_warning]
       ∧ counter st1 = Some (VInt 1).
Proof.
  intros Hl Hcopy Hx.
  set (st := __init__ (VRef l) (VBool true) h w).
  assert (__next__ st
          = (Ret x, set_iter (Some (GenSuspended (ListIter l 1)))
                      (set_warnings (w ++ [deepcopy_warning]) (counted 0 st))))
    as Hrun.
  { rewrite (next_counted st 0 eq_refl). simpl default.
    rewrite gen_next_created.
    rewrite (iter_body_start_list (counted 0 st) l xs true eq_refl eq_refl Hl).
    rewrite Hcopy.
    rewrite (gen_next_list_iter l 0 xs) by exact Hl.
    by rewrite Hx. }
  pose proof (next_counter st 0 eq_refl) as Hc. rewrite Hrun in Hc.
  eexists. split; [exact Hrun|].
  split; [split; [reflexivity | exact Hl]|].
  split; [reflexivity|]. split; [reflexivity | exact Hc].
Qed.

Lemma cursor_at_mutate c xs i l ys st :
  l ≠ c → cursor_at c xs i st → cursor_at c xs i (mutate l ys st).
Proof.
  intros Hne [Hit Hc]. split.
  - by rewrite mutate_iter.
  - by rewrite mutate_keeps_other.
Qed.

Lemma counter_mutate l ys st : counter (mutate l ys st) = counter st.
Proof. unfold counter. by rewrite mutate_dict. Qed.

(** X18: with the copy policy on, the elements handed out by
    [__next__] over a list that can be duplicated are those the list
    held at the first call: once [k >= 1] elements have been handed
    out, whatever the caller writes into the list, the following calls
    hand out the rest of the old items; the wrapper has not touched the
    list itself. *)
Theorem X18_copy_isolates_the_cursor
    (h : list pyobj) (w : list string) (l : loc) (xs ys : list elem)
    (k m : nat) :
  h !! l = Some (PyList xs) →
  deep_copyable xs →
  0 < k →
  k + m ≤ length xs →
  ∃ st_k st',
    next_n k (__init__ (VRef l) (VBool true) h w) = (Ret (take k xs), st_k)
    ∧ heap st_k !! l = Some (PyList xs)
    ∧ next_n m (mutate l ys st_k) = (Ret (take m (drop k xs)), st').
Proof.
  intros Hl Hcopy Hk Hkm. destruct k as [|k]; [lia|].
  destruct (xs !! 0) as [x|] eqn:Hx; [|apply lookup_ge_None in Hx; lia].
  destruct (first_next_copied h w l xs x Hl Hcopy Hx)
    as (st1 & Hrun1 & Hcur1 & Hh1 & _ & Hc1).
  destruct (next_n_cursor_at (length h) xs k 1 st1 1 Hcur1 Hc1)
    as (st_k & Hrun & Hcur & Hh & _); [lia|].
  assert (counter st_k = Some (VInt (1 + Z.of_nat k))) as Hck.
  { destruct (next_n_counter _ _ _ _ _ Hc1 Hrun) as [Hck _]. exact Hck. }
  assert (l ≠ length h) as Hne by (apply lookup_lt_Some in Hl; lia).
  destruct (next_n_cursor_at (length h) xs m (1 + k) (mutate l ys st_k) _
              (cursor_at_mutate _ _ _ _ ys _ Hne Hcur)
              (eq_trans (counter_mutate l ys st_k) Hck))
    as (st' & Hrun' & _); [lia|].
  exists st_k, st'. split; [|split].
  - cbn [next_n]. rewrite bind_run, Hrun1, bind_run, Hrun.
    rewrite <- (drop_0 xs) at 2. by rewrite (drop_S _ _ _ Hx).
  - rewrite Hh, Hh1. by apply lookup_app_l_Some.
  - exact Hrun'.
Qed.

Lemma X18_copy_isolates_the_cursor_witness :
  ∃ st_k st',
    next_n 2 example_fresh = (Ret [EInt 1; EInt 2], st_k)
    ∧ next_n 3 (mutate 0 [] st_k) = (Ret [EInt 3; EInt 4; EInt 5], st').
Proof.
  destruct (X18_copy_isolates_the_cursor example_heap [] 0
              [EInt 1; EInt 2; EInt 3; EInt 4; EInt 5] [] 2 3)
    as (st_k & st' & H1 & _ & H2).
  - reflexivity.
  - by exists [EInt 1; EInt 2; EInt 3; EInt 4; EInt 5].
  - lia.
  - simpl. lia.
  - by exists st_k, st'.
Defined.

(** X19: with the copy policy on, over a list whose duplication is
    unsupported, the calls of [__next__] hand out the elements of the
    list itself: one warning is emitted, at the first call, no
    duplicate is made, and what the caller then writes into the list
    is what the following calls hand out. *)
Theorem X19_unsupported_copy_on_the_cursor
    (h : list pyobj) (w : list string) (l : loc) (xs ys : list elem)
    (k m : nat) :
  h !! l = Some (PyList xs) →
  items_deepcopy xs = Raise TypeError →
  0 < k →
  k ≤ length xs →
  k + m ≤ length ys →
  ∃ st_k st',
    next_n k (__init__ (VRef l) (VBool true) h w) = (Ret (take k xs), st_k)
    ∧ warnings st_k = w ++ [deepcopy_warning]
    ∧ heap st_k = h
    ∧ next_n m (mutate l ys st_k) = (Ret (take m (drop k ys)), st').
Proof.
  intros Hl Hcopy Hk Hkx Hkm. destruct k as [|k]; [lia|].
  destruct (xs !! 0) as [x|] eqn:Hx; [|apply lookup_ge_None in Hx; lia].
  destruct (first_next_fallback h w l xs x Hl Hcopy Hx)
    as (st1 & Hrun1 & Hcur1 & Hh1 & Hw1 & Hc1).
  destruct (next_n_cursor_at l xs k 1 st1 1 Hcur1 Hc1)
    as (st_k & Hrun & Hcur & Hh & Hw); [lia|].
  assert (counter st_k = Some (VInt (1 + Z.of_nat k))) as Hck.
  { destruct (next_n_counter _ _ _ _ _ Hc1 Hrun) as [Hck _]. exact Hck. }
  assert (cursor_at l ys (1 + k) (mutate l ys st_k)) as Hcur'.
  { destruct Hcur as [Hit Hlk]. split.
    - by rewrite mutate_iter.
    - by eapply mutate_lookup. }
  destruct (next_n_cursor_at l ys m (1 + k) (mutate l ys st_k) _ Hcur'
              (eq_trans (counter_mutate l ys st_k) Hck))
    as (st' & Hrun' & _); [lia|].
  exists st_k, st'. split; [|split; [|split]].
  - cbn [next_n]. rewrite bind_run, Hrun1, bind_run, Hrun.
    rewrite <- (drop_0 xs) at 2. by rewrite (drop_S _ _ _ Hx).
  - by rewrite Hw, Hw1.
  - by rewrite Hh, Hh1.
  - exact Hrun'.
Qed.

Lemma X19_unsupported_copy_on_the_cursor_witness :
  ∃ st_k st',
    next_n 1 handle_fresh = (Ret [EInt 1], st_k)
    ∧ warnings st_k = [deepcopy_warning]
    ∧ next_n 1 (mutate 0 [EInt 7; EInt 8] st_k) = (Ret [EInt 8], st').
Proof.
  destruct (X19_unsupported_copy_on_the_cursor
              [PyList [EInt 1; EHandle 0 CopyUnsupported]] [] 0
              [EInt 1; EHandle 0 CopyUnsupported] [EInt 7; EInt 8] 1 1)
    as (st_k & st' & H1 & Hw & _ & H2).
  - reflexivity.
  - reflexivity.
  - lia.
  - simpl. lia.
  - simpl. lia.
  - by exists st_k, st'.
Defined.

(** ** The number of calls that restore_snapshot makes *)

Lemma restore_loop_done fuel t st c n :
  counter st = Some (VInt c) →
  as_int t = Some n →
  (n ≤ c)%Z →
  restore_loop (S fuel) t st = Some (Ret tt, st).
Proof.
  intros Hc Ht Hn. rewrite restore_loop_S. unfold getattr; monad_unfold.
  unfold counter in Hc. rewrite Hc. unfold py_lt. cbn [as_int]. rewrite Ht.
  by replace (c <? n)%Z with false by (symmetry; apply Z.ltb_ge; lia).
Qed.

(** From counter [c], a target worth [c + k] takes [k] calls of
    [__next__], whether it is an [int] or a [bool]. *)
Lemma restore_loop_calls k : ∀ fuel st c t,
  counter st = Some (VInt c) →
  as_int t = Some (c + Z.of_nat k)%Z →
  k < fuel →
  restore_loop fuel t st = Some (advance_n k st).
Proof.
  induction k as [|k IH]; intros fuel st c t Hc Ht Hf;
    (destruct fuel as [|fuel]; [lia|]).
  - by apply (restore_loop_done fuel t st c (c + Z.of_nat 0)%Z); [| |lia].
  - rewrite advance_n_S, restore_loop_S. unfold getattr, py_lt; monad_unfold.
    pose proof Hc as Hc'. unfold counter in Hc'. rewrite Hc'.
    cbn [as_int]. rewrite Ht.
    replace (c <? c + Z.of_nat (S k))%Z with true
      by (symmetry; apply Z.ltb_lt; lia).
    pose proof (next_counter st c Hc) as Hn.
    destruct (__next__ st) as [[x|e] st2]; [|reflexivity].
    simpl in Hn. apply (IH fuel st2 (c + 1)%Z t).
    + exact Hn.
    + rewrite Ht. f_equal. lia.
    + lia.
Qed.

(** X17: with a target worth the integer [n] (an [int] or a [bool]),
    [restore_snapshot], in any state and over any source, an endless
    generator included, sets the counter to 0 and makes at most
    [max n 0] calls of [__next__], stopping at the first one that
    raises; no more loop iterations than that are ever needed, and
    allowing more changes nothing. The same holds for the omitted
    target, with the count the instance has. *)
Theorem X17_restore_makes_at_most_target_calls
    (t : value) (n : Z) (st : state) (fuel : nat) :
  as_int t = Some n →
  Z.to_nat n < fuel →
  restore_snapshot fuel t st
    = Some (advance_n (Z.to_nat n) (reset_counter st))
  ∧ restore_snapshot fuel t st = restore_snapshot (S (Z.to_nat n)) t st
  ∧ (self_dict st !! "state_counter" = Some t →
     restore_snapshot fuel VNone st
     = Some (advance_n (Z.to_nat n) (reset_counter st))).
Proof.
  intros Ht Hf.
  assert (∀ fuel', Z.to_nat n < fuel' →
            restore_loop fuel' t (reset_counter st)
            = Some (advance_n (Z.to_nat n) (reset_counter st))) as Hloop.
  { intros fuel' Hf'. destruct (Z.le_gt_cases 0 n) as [Hpos | Hneg].
    - apply (restore_loop_calls _ _ _ 0%Z);
        [apply reset_counter_counter | | exact Hf'].
      rewrite Ht. f_equal. lia.
    - destruct fuel' as [|fuel']; [lia|].
      replace (Z.to_nat n) with 0 by lia.
      apply (restore_loop_done _ _ _ 0%Z n);
        [apply reset_counter_counter | exact Ht | lia]. }
  assert (∀ fuel', restore_snapshot fuel' t st
                   = restore_loop fuel' t (reset_counter st)) as Hrun
    by (intros fuel'; destruct t; try done).
  split; [|split].
  - rewrite Hrun. by apply Hloop.
  - rewrite !Hrun, !Hloop; [done | lia | done].
  - intros Hattr. unfold restore_snapshot, getattr. rewrite Hattr. cbn.
    by apply Hloop.
Qed.

Lemma X17_restore_makes_at_most_target_calls_witness :
  restore_snapshot 100 (VInt 3) stream_fresh
  = restore_snapshot (S (Z.to_nat 3)) (VInt 3) stream_fresh.
Proof.
  destruct (X17_restore_makes_at_most_target_calls (VInt 3) 3 stream_fresh 100)
    as (_ & Hsame & _); [reflexivity | vm_compute; lia | exact Hsame].
Defined.
